(** * Microgrid dispatch simulation: [AdvancedEconomicSim.update_logic]

    A shallow embedding of the computational core of
    [src/Microgrid/Microgrid.py], in two models of its arithmetic.

    The first reads the Python floats as real numbers ([R]): [np.exp],
    [np.sin], [min] and [abs] are [exp], [sin], [Rmin] and [Rabs].  It
    carries the properties that are stated in the operations the code
    performs, or that rounding cannot break.

    The second (modules [B64] and [F64]) computes as the code does, in IEEE
    binary64 with rounding to nearest even, and runs.  It shows where a
    property of exact arithmetic is lost to rounding.

    Everything that is not arithmetic is the same in both: the object
    attributes read and written by [update_logic], the local variable
    [soc] threaded through the 24 iterations of the loop, the two mode
    flags stored on the object, and the division by the capacity. *)

From Stdlib Require Import String Reals Lra Lia List Bool ZArith SpecFloat.
Import ListNotations.

Open Scope R_scope.

(** ** Python scalars, exceptions and built-ins *)

Module Py.

(** Why a run of the real-number model stops.  The source has no [raise]
    statement and no check: the one thing that can go wrong is the division
    [soc / b_cap] by a zero capacity.  Python then raises
    [ZeroDivisionError] when [soc] is still a Python float, and yields
    [inf] or [nan] with a warning once [soc] has become an [np.float64];
    neither outcome is a real number, and this model stops there without
    saying which of the two it is.  The binary64 model tells them apart. *)
Inductive halt : Set :=
| DivisionByZero.

Inductive result (A : Type) : Type :=
| Ok (a : A)
| Stop (why : halt).

Arguments Ok {A} a.
Arguments Stop {A} why.

Definition bind {A B : Type} (m : result A) (k : A -> result B) : result B :=
  match m with
  | Ok a => k a
  | Stop why => Stop why
  end.

(** [x / y], for a divisor that is not zero. *)
Definition truediv (x y : R) : result R :=
  if Req_dec_T y 0 then Stop DivisionByZero else Ok (x / y).

(** [min(a, b, c)]. *)
Definition min3 (a b c : R) : R := Rmin a (Rmin b c).

(** [for h in hs: body]. *)
Fixpoint for_each {St : Type} (hs : list nat)
         (body : nat -> St -> result St) (st : St) : result St :=
  match hs with
  | [] => Ok st
  | h :: hs' => bind (body h st) (for_each hs' body)
  end.

(** [range(n)]. *)
Definition range (n : nat) : list nat := seq 0 n.

(** [np.arange(n)]: the integers [0 .. n-1]. *)
Definition arange (n : nat) : list Z := map Z.of_nat (seq 0 n).

End Py.

Import Py.

Notation "x <- m ;; k" := (bind m (fun x => k))
  (at level 61, m at next level, right associativity).

(** ** The simulator object *)

(** The attributes of [AdvancedEconomicSim] that [update_logic] reads or
    writes.  Figure, axes, widgets and plot artists are presentation only
    and are left out. *)
Record Sim : Type := mkSim {
  grid_active      : bool;
  scheduler_active : bool;
  grid_buy_price   : R;
  grid_sell_price  : R;
  hours            : list Z;
  solar            : list R;
  wind             : list R;
  load             : list R;
  soc_history      : list R;
  grid_flow        : list R;
  total_cost       : R
}.

Definition set_grid_active (b : bool) (s : Sim) : Sim :=
  mkSim b (scheduler_active s) (grid_buy_price s) (grid_sell_price s)
        (hours s) (solar s) (wind s) (load s)
        (soc_history s) (grid_flow s) (total_cost s).

Definition set_scheduler_active (b : bool) (s : Sim) : Sim :=
  mkSim (grid_active s) b (grid_buy_price s) (grid_sell_price s)
        (hours s) (solar s) (wind s) (load s)
        (soc_history s) (grid_flow s) (total_cost s).

Definition set_profiles (hs : list Z) (sol wnd lod : list R) (s : Sim) : Sim :=
  mkSim (grid_active s) (scheduler_active s)
        (grid_buy_price s) (grid_sell_price s)
        hs sol wnd lod
        (soc_history s) (grid_flow s) (total_cost s).

Definition set_soc_history (l : list R) (s : Sim) : Sim :=
  mkSim (grid_active s) (scheduler_active s)
        (grid_buy_price s) (grid_sell_price s)
        (hours s) (solar s) (wind s) (load s)
        l (grid_flow s) (total_cost s).

Definition set_grid_flow (l : list R) (s : Sim) : Sim :=
  mkSim (grid_active s) (scheduler_active s)
        (grid_buy_price s) (grid_sell_price s)
        (hours s) (solar s) (wind s) (load s)
        (soc_history s) l (total_cost s).

Definition set_total_cost (c : R) (s : Sim) : Sim :=
  mkSim (grid_active s) (scheduler_active s)
        (grid_buy_price s) (grid_sell_price s)
        (hours s) (solar s) (wind s) (load s)
        (soc_history s) (grid_flow s) c.

(** ** [update_logic] *)

(** Lines 43-45: the three shape functions, one entry per element of
    [self.hours].  [(h - 12)**2] and [2 * 3**2] are integer arithmetic,
    the divisions are true divisions. *)
Definition solar_at (s_mul : R) (h : Z) : R :=
  s_mul * exp (- IZR ((h - 12) ^ 2) / IZR (2 * 3 ^ 2)).

Definition wind_at (w_mul : R) (h : Z) : R :=
  w_mul * (0.6 + 0.4 * sin (IZR h / 4)).

Definition load_at (l_mul : R) (h : Z) : R :=
  l_mul * (1 + 0.8 * exp (- IZR ((h - 9) ^ 2) / 2)
             + 1.2 * exp (- IZR ((h - 19) ^ 2) / 4)).

(** [a[h]] on an array; every index the loop uses is in range. *)
Definition idx (a : list R) (h : nat) : R := nth h a 0.

(** Lines 42-49: everything [update_logic] does before the loop.  The
    result is the object with its profiles recomputed and its outputs
    cleared, together with the initial value of the local [soc]. *)
Definition prepare (self : Sim) (s_mul w_mul l_mul b_cap : R) : Sim * R :=
  let hs := arange 24 in
  let self := set_profiles hs
                (map (solar_at s_mul) hs)
                (map (wind_at w_mul) hs)
                (map (load_at l_mul) hs) self in
  let soc := b_cap * 0.5 in
  let self := set_grid_flow [] (set_soc_history [] self) in
  let self := set_total_cost 0.0 self in
  (self, soc).

(** Lines 52-76: one iteration of the loop, on the pair of the object and
    the local [soc]. *)
Definition hour_body (d_mul b_cap : R) (h : nat) (st : Sim * R)
  : result (Sim * R) :=
  let '(self, soc) := st in
  let gen := idx (solar self) h + idx (wind self) h + d_mul in
  let net := gen - idx (load self) h in
  let '(soc, flow) :=
    if scheduler_active self && ((10 <=? h)%nat && (h <=? 14)%nat) then
      let charge_power := Rmin 25.0 (b_cap - soc) in
      let soc := soc + charge_power in
      (soc, if grid_active self then charge_power - net else 0)
    else if Rlt_dec 0 net then
      let charge := min3 net (b_cap - soc) 20.0 in
      let soc := soc + charge in
      (soc, if grid_active self then - (net - charge) else 0)
    else
      let needed := Rabs net in
      let disch := min3 needed soc 20.0 in
      let soc := soc - disch in
      (soc, if grid_active self then needed - disch else 0) in
  let self := set_grid_flow (grid_flow self ++ [flow]) self in
  q <- truediv soc b_cap ;;
  let self := set_soc_history (soc_history self ++ [q * 100]) self in
  let self :=
    if Rlt_dec 0 flow
    then set_total_cost (total_cost self + flow * grid_buy_price self) self
    else set_total_cost (total_cost self + flow * grid_sell_price self) self in
  Ok (self, soc).

Arguments hour_body : simpl never.

(** The state of the run after the first [n] iterations of the loop. *)
Definition run_hours (n : nat) (self : Sim) (s_mul w_mul d_mul l_mul b_cap : R)
  : result (Sim * R) :=
  for_each (range n) (hour_body d_mul b_cap)
           (prepare self s_mul w_mul l_mul b_cap).

Definition update_logic (self : Sim) (s_mul w_mul d_mul l_mul b_cap : R)
  : result Sim :=
  st <- run_hours 24 self s_mul w_mul d_mul l_mul b_cap ;;
  Ok (fst st).

(** ** The rest of the object's life cycle *)

(** Lines 8-9. *)
Definition init_solar : R := 50.0.
Definition init_wind : R := 20.0.
Definition init_diesel : R := 10.0.
Definition init_load : R := 30.0.
Definition init_batt : R := 100.0.

(** Lines 11-16 and 23 of [__init__]: the flags and the tariff are set,
    then [update_logic] runs on the default values. *)
Definition fresh : Sim := mkSim true false 0.15 0.08 [] [] [] [] [] [] 0.

Definition new_sim : result Sim :=
  update_logic fresh init_solar init_wind init_diesel init_load init_batt.

(** [toggle_grid], [toggle_scheduler] and [reset_defaults] assign the
    flags; each then calls [update_plot], which calls [update_logic] on
    the current slider values.  The slider callbacks and the two presets
    assign nothing on the object but go through [update_plot] too. *)
Definition toggle_grid (self : Sim) : Sim :=
  set_grid_active (negb (grid_active self)) self.

Definition toggle_scheduler (self : Sim) : Sim :=
  set_scheduler_active (negb (scheduler_active self)) self.

Definition reset_flags (self : Sim) : Sim :=
  set_scheduler_active false (set_grid_active true self).

(** The objects a session can hold between two recomputations. *)
Inductive reachable : Sim -> Prop :=
| reach_new : forall s,
    new_sim = Ok s -> reachable s
| reach_update : forall s s_mul w_mul d_mul l_mul b_cap s',
    reachable s ->
    update_logic s s_mul w_mul d_mul l_mul b_cap = Ok s' ->
    reachable s'
| reach_toggle_grid : forall s,
    reachable s -> reachable (toggle_grid s)
| reach_toggle_scheduler : forall s,
    reachable s -> reachable (toggle_scheduler s)
| reach_reset : forall s,
    reachable s -> reachable (reset_flags s).

(** ** Vocabulary of the specification *)

(** The Data Model invariant on the inputs: multipliers non-negative,
    capacity positive (finiteness is built into [R]). *)
Definition valid_input (s_mul w_mul d_mul l_mul b_cap : R) : Prop :=
  0 <= s_mul /\ 0 <= w_mul /\ 0 <= d_mul /\ 0 <= l_mul /\ 0 < b_cap.

(** The cost of one hour's grid flow at the published tariff. *)
Definition hour_cost (flow : R) : R :=
  if Rlt_dec 0 flow then flow * 0.15 else flow * 0.08.

(** The sum of the hourly costs, in hour order, starting from [0]. *)
Definition cost_sum (flows : list R) : R :=
  fold_left (fun acc f => acc + hour_cost f) flows 0.

(** [net] of hour [h] as a function of the inputs. *)
Definition net_at (s_mul w_mul d_mul l_mul : R) (h : nat) : R :=
  solar_at s_mul (Z.of_nat h) + wind_at w_mul (Z.of_nat h) + d_mul
  - load_at l_mul (Z.of_nat h).

(** The value of the local [soc] when hour [h] starts and when it ends. *)
Definition soc_before (h : nat) (self : Sim) (s_mul w_mul d_mul l_mul b_cap : R)
  : result R :=
  st <- run_hours h self s_mul w_mul d_mul l_mul b_cap ;; Ok (snd st).

Definition soc_after (h : nat) (self : Sim) (s_mul w_mul d_mul l_mul b_cap : R)
  : result R :=
  soc_before (S h) self s_mul w_mul d_mul l_mul b_cap.

(** Hour [h] lies in the scheduled charging window. *)
Definition in_window (h : nat) : Prop := (10 <= h <= 14)%nat.

(** The three dispatch rules as a relation between the battery charge at
    the start of an hour, the charge at its end and the hour's grid flow. *)
Inductive dispatch (self : Sim) (b_cap : R) (h : nat) (net soc : R)
  : R -> R -> Prop :=
| dispatch_scheduled :
    scheduler_active self = true -> in_window h ->
    dispatch self b_cap h net soc
      (soc + Rmin 25.0 (b_cap - soc))
      (if grid_active self then Rmin 25.0 (b_cap - soc) - net else 0)
| dispatch_surplus :
    scheduler_active self = false \/ ~ in_window h ->
    0 < net ->
    dispatch self b_cap h net soc
      (soc + min3 net (b_cap - soc) 20.0)
      (if grid_active self
       then - (net - min3 net (b_cap - soc) 20.0) else 0)
| dispatch_deficit :
    scheduler_active self = false \/ ~ in_window h ->
    net <= 0 ->
    dispatch self b_cap h net soc
      (soc - min3 (Rabs net) soc 20.0)
      (if grid_active self
       then Rabs net - min3 (Rabs net) soc 20.0 else 0).

(** What one iteration appends to the object. *)
Definition record_hour (self : Sim) (flow pct : R) : Sim :=
  set_total_cost
    (total_cost self
     + (if Rlt_dec 0 flow
        then flow * grid_buy_price self else flow * grid_sell_price self))
    (set_soc_history (soc_history self ++ [pct])
       (set_grid_flow (grid_flow self ++ [flow]) self)).

(** Two objects agree on what [update_logic] reads from [self]. *)
Definition same_config (a b : Sim) : Prop :=
  grid_active a = grid_active b /\
  scheduler_active a = scheduler_active b /\
  grid_buy_price a = grid_buy_price b /\
  grid_sell_price a = grid_sell_price b.

(** What the loop never changes once [prepare] has run on [self]: the
    configuration of [self] and the three profiles. *)
Definition prepared_from (self : Sim) (s_mul w_mul l_mul : R) (s : Sim) : Prop :=
  same_config s self /\
  hours s = arange 24 /\
  solar s = map (solar_at s_mul) (arange 24) /\
  wind s = map (wind_at w_mul) (arange 24) /\
  load s = map (load_at l_mul) (arange 24).

(** The cost accumulated over a list of grid flows at given prices. *)
Definition tariff_sum (buy sell : R) (flows : list R) : R :=
  fold_left
    (fun acc f => acc + (if Rlt_dec 0 f then f * buy else f * sell)) flows 0.

(** ** The controls around [update_logic]

    The callbacks of [AdvancedEconomicSim] and the widget state they read
    and write.  Of [matplotlib] only what the callbacks rely on is kept: a
    [Slider] holds a value [val]; [Slider.set_val] stores the value and
    then notifies the observers registered with [on_changed];
    [Slider.reset] calls [set_val(valinit)] when the value differs from
    [valinit]; dragging a slider clips the position to [valmin, valmax]
    and calls [set_val] when the clipped value differs from the current
    one.  Drawing ([draw_idle], styling, axes) is left out. *)

Module Gui.

(** The five sliders of [create_controls], by attribute name. *)
Inductive slider : Set :=
| sld_sol | sld_wnd | sld_dsl | sld_lod | sld_bat.

(** Lines 118-122: [Slider(ax, label, valmin, valmax, valinit=...)]. *)
Definition valmin (k : slider) : R :=
  match k with
  | sld_sol => 0 | sld_wnd => 0 | sld_dsl => 0 | sld_lod => 10 | sld_bat => 20
  end.

Definition valmax (k : slider) : R :=
  match k with
  | sld_sol => 100 | sld_wnd => 100 | sld_dsl => 50
  | sld_lod => 150 | sld_bat => 500
  end.

Definition valinit (k : slider) : R :=
  match k with
  | sld_sol => init_solar | sld_wnd => init_wind | sld_dsl => init_diesel
  | sld_lod => init_load | sld_bat => init_batt
  end.

(** The current [val] of each slider. *)
Record Sliders : Type := mkSliders {
  sol_val : R;
  wnd_val : R;
  dsl_val : R;
  lod_val : R;
  bat_val : R
}.

Definition val (k : slider) (v : Sliders) : R :=
  match k with
  | sld_sol => sol_val v | sld_wnd => wnd_val v | sld_dsl => dsl_val v
  | sld_lod => lod_val v | sld_bat => bat_val v
  end.

Definition put (k : slider) (x : R) (v : Sliders) : Sliders :=
  match k with
  | sld_sol => mkSliders x (wnd_val v) (dsl_val v) (lod_val v) (bat_val v)
  | sld_wnd => mkSliders (sol_val v) x (dsl_val v) (lod_val v) (bat_val v)
  | sld_dsl => mkSliders (sol_val v) (wnd_val v) x (lod_val v) (bat_val v)
  | sld_lod => mkSliders (sol_val v) (wnd_val v) (dsl_val v) x (bat_val v)
  | sld_bat => mkSliders (sol_val v) (wnd_val v) (dsl_val v) (lod_val v) x
  end.

(** The data held by the plot artists: the y-data of the three lines, the
    heights of the 24 grid-flow bars and the curve under the fill. *)
Record Plots : Type := mkPlots {
  l_sol    : list R;
  l_load   : list R;
  bar_grid : list R;
  l_soc    : list R;
  f_soc    : list R
}.

(** The text of [cost_text].  The cost line is
    [f"Daily Operating Cost: ${self.total_cost:.2f} | Status: {status}"];
    it is kept as its two arguments, the two-decimal rendering of a float
    having no counterpart on [R]. *)
Inductive banner : Type :=
| Blank
| SystemStatus (status : string)
| DailyCost (cost : R) (status : string).

Record App : Type := mkApp {
  sim            : Sim;
  show_cost_data : bool;
  plots          : Plots;
  cost_text      : banner;
  btn_sched      : string;
  sliders        : Sliders
}.

Definition set_sim (s : Sim) (a : App) : App :=
  mkApp s (show_cost_data a) (plots a) (cost_text a) (btn_sched a) (sliders a).

Definition set_show_cost_data (b : bool) (a : App) : App :=
  mkApp (sim a) b (plots a) (cost_text a) (btn_sched a) (sliders a).

Definition set_plots (p : Plots) (a : App) : App :=
  mkApp (sim a) (show_cost_data a) p (cost_text a) (btn_sched a) (sliders a).

Definition set_cost_text (t : banner) (a : App) : App :=
  mkApp (sim a) (show_cost_data a) (plots a) t (btn_sched a) (sliders a).

Definition set_btn_sched (l : string) (a : App) : App :=
  mkApp (sim a) (show_cost_data a) (plots a) (cost_text a) l (sliders a).

Definition set_sliders (v : Sliders) (a : App) : App :=
  mkApp (sim a) (show_cost_data a) (plots a) (cost_text a) (btn_sched a) v.

(** Lines 165-170. *)
Definition refresh_display (self : App) : App :=
  let status := if grid_active (sim self)
                then "GRID CONNECTED"%string else "ISLANDED MODE"%string in
  if show_cost_data self
  then set_cost_text (DailyCost (total_cost (sim self)) status) self
  else set_cost_text (SystemStatus status) self.

(** Lines 177-178: [for rect, val_g in zip(bars, flows): rect.set_height(val_g)]. *)
Fixpoint set_heights (bars flows : list R) : list R :=
  match bars, flows with
  | _ :: bs, f :: fs => f :: set_heights bs fs
  | _, _ => bars
  end.

(** Lines 172-182. *)
Definition update_plot (self : App) : result App :=
  let v := sliders self in
  s <- update_logic (sim self)
         (sol_val v) (wnd_val v) (dsl_val v) (lod_val v) (bat_val v) ;;
  let self := set_sim s self in
  let p := plots self in
  let p := mkPlots (solar s) (load s)
                   (set_heights (bar_grid p) (grid_flow s))
                   (soc_history s) (soc_history s) in
  Ok (refresh_display (set_plots p self)).

(** [Slider.set_val]; the one observer is [update_plot] (lines 124-125). *)
Definition set_val (k : slider) (x : R) (self : App) : result App :=
  update_plot (set_sliders (put k x (sliders self)) self).

(** [Slider.reset]. *)
Definition reset (k : slider) (self : App) : result App :=
  if Req_dec_T (val k (sliders self)) (valinit k)
  then Ok self else set_val k (valinit k) self.

(** Dragging slider [k] to position [x]. *)
Definition clip (k : slider) (x : R) : R :=
  if Rle_dec x (valmin k) then valmin k
  else if Rle_dec (valmax k) x then valmax k else x.

Definition drag (k : slider) (x : R) (self : App) : result App :=
  let x := clip k x in
  if Req_dec_T x (val k (sliders self)) then Ok self else set_val k x self.

Definition sched_on : string := "🤖 Smart DES: ON".
Definition sched_off : string := "🤖 Smart DES: OFF".

(** Lines 6-39 of [__init__], widgets and styling apart. *)
Definition new_app : result App :=
  s <- update_logic fresh init_solar init_wind init_diesel init_load init_batt ;;
  let p := mkPlots (solar s) (load s) (grid_flow s)
                   (soc_history s) (soc_history s) in
  let v := mkSliders (valinit sld_sol) (valinit sld_wnd) (valinit sld_dsl)
                     (valinit sld_lod) (valinit sld_bat) in
  Ok (refresh_display (mkApp s false p Blank sched_off v)).

(** Lines 127-140. *)
Definition reset_defaults (self : App) : result App :=
  self <- reset sld_sol self ;;
  self <- reset sld_wnd self ;;
  self <- reset sld_dsl self ;;
  self <- reset sld_lod self ;;
  self <- reset sld_bat self ;;
  let self := set_sim (set_grid_active true (sim self)) self in
  let self := set_sim (set_scheduler_active false (sim self)) self in
  let self := set_btn_sched sched_off self in
  update_plot self.

(** Lines 142-145. *)
Definition toggle_cost_visibility (self : App) : result App :=
  let self := set_show_cost_data (negb (show_cost_data self)) self in
  Ok (refresh_display self).

(** Lines 147-151. *)
Definition toggle_scheduler (self : App) : result App :=
  let self :=
    set_sim (set_scheduler_active (negb (scheduler_active (sim self)))
                                  (sim self)) self in
  let label := if scheduler_active (sim self) then sched_on else sched_off in
  let self := set_btn_sched label self in
  update_plot self.

(** Lines 153-155. *)
Definition set_storm (self : App) : result App :=
  self <- set_val sld_sol 0.0 self ;;
  self <- set_val sld_wnd 100.0 self ;;
  self <- set_val sld_dsl 30.0 self ;;
  update_plot self.

(** Lines 157-159. *)
Definition set_clear (self : App) : result App :=
  self <- set_val sld_sol 50.0 self ;;
  self <- set_val sld_wnd 20.0 self ;;
  self <- set_val sld_dsl 10.0 self ;;
  update_plot self.

(** Lines 161-163. *)
Definition toggle_grid (self : App) : result App :=
  let self :=
    set_sim (set_grid_active (negb (grid_active (sim self))) (sim self)) self in
  update_plot self.

(** What the user can do: drag a slider or click one of the six buttons
    (lines 104-109). *)
Inductive event : Type :=
| Drag (k : slider) (x : R)
| ClickStorm
| ClickClear
| ClickGridToggle
| ClickSmartDes
| ClickResetSystem
| ClickShowHideCost.

Definition handle (e : event) (self : App) : result App :=
  match e with
  | Drag k x => drag k x self
  | ClickStorm => set_storm self
  | ClickClear => set_clear self
  | ClickGridToggle => toggle_grid self
  | ClickSmartDes => toggle_scheduler self
  | ClickResetSystem => reset_defaults self
  | ClickShowHideCost => toggle_cost_visibility self
  end.

(** The object after [__init__] and a sequence of events. *)
Definition session (es : list event) : result App :=
  fold_left (fun r e => self <- r ;; handle e self) es new_app.

End Gui.

(** What the display should show for a given object: the plotted data,
    the banner and the label of the scheduler button. *)
Definition plots_of (s : Sim) : Gui.Plots :=
  Gui.mkPlots (solar s) (load s) (grid_flow s) (soc_history s) (soc_history s).

Definition banner_of (show : bool) (s : Sim) : Gui.banner :=
  let status := if grid_active s
                then "GRID CONNECTED"%string else "ISLANDED MODE"%string in
  if show then Gui.DailyCost (total_cost s) status
  else Gui.SystemStatus status.

Definition label_of (s : Sim) : string :=
  if scheduler_active s then Gui.sched_on else Gui.sched_off.

Definition in_range (v : Gui.Sliders) : Prop :=
  forall k, Gui.valmin k <= Gui.val k v <= Gui.valmax k.

(** The simulation outputs on the object are those of the current slider
    values and flags. *)
Definition up_to_date (a : Gui.App) : Prop :=
  let v := Gui.sliders a in
  update_logic (Gui.sim a) (Gui.sol_val v) (Gui.wnd_val v) (Gui.dsl_val v)
               (Gui.lod_val v) (Gui.bat_val v)
  = Ok (Gui.sim a).

(** The display agrees with the object, the object with the sliders. *)
Definition in_sync (a : Gui.App) : Prop :=
  in_range (Gui.sliders a)
  /\ up_to_date a
  /\ grid_buy_price (Gui.sim a) = 0.15
  /\ grid_sell_price (Gui.sim a) = 0.08
  /\ Gui.plots a = plots_of (Gui.sim a)
  /\ Gui.cost_text a = banner_of (Gui.show_cost_data a) (Gui.sim a)
  /\ Gui.btn_sched a = label_of (Gui.sim a).

(** What a state needs for [update_plot] to bring it in sync. *)
Definition ready (a : Gui.App) : Prop :=
  in_range (Gui.sliders a)
  /\ grid_buy_price (Gui.sim a) = 0.15
  /\ grid_sell_price (Gui.sim a) = 0.08
  /\ length (Gui.bar_grid (Gui.plots a)) = 24%nat
  /\ Gui.btn_sched a = label_of (Gui.sim a).

(** Magnitudes that keep every intermediate double of a run finite, so
    that no sum overflows to [inf] and no [inf - inf] gives [nan]. *)
Definition no_overflow (s_mul w_mul d_mul l_mul b_cap : R) : Prop :=
  s_mul <= 1e300 /\ w_mul <= 1e300 /\ d_mul <= 1e300 /\ l_mul <= 1e300
  /\ b_cap <= 1e300.

(** ** Binary64 arithmetic

    IEEE 754 double precision with rounding to nearest even, as the
    specification of floating-point numbers of the standard library
    computes it.  [np.exp] and [np.sin] are taken correctly rounded: a
    series summed in fixed point with 256 fractional bits, then rounded. *)

Module B64.

Local Open Scope Z_scope.

Definition prec : Z := 53.
Definition emax : Z := 1024.

Definition float : Type := spec_float.

Definition add : float -> float -> float := SFadd prec emax.
Definition sub : float -> float -> float := SFsub prec emax.
Definition mul : float -> float -> float := SFmul prec emax.
Definition div : float -> float -> float := SFdiv prec emax.

(** [float(z)] for an integer [z]. *)
Definition of_Z (z : Z) : float := binary_normalize prec emax z 0 false.

(** The literal with decimal digits [m] and [k] digits after the point:
    the double nearest to [m / 10^k]. *)
Definition lit (m : Z) (k : Z) : float := div (of_Z m) (of_Z (10 ^ k)).

Definition zero : float := S754_zero false.

Definition is_zero (x : float) : bool :=
  match x with
  | S754_zero _ => true
  | _ => false
  end.

(** Number of fractional bits of the fixed-point sums. *)
Definition P : Z := 256.

(** [m * 2^e] in fixed point. *)
Definition fixed (m : positive) (e : Z) : Z := Z.shiftl (Zpos m) (e + P).

(** [sum_k a^k / k!], term by term until the terms vanish. *)
Fixpoint exp_series (fuel : nat) (A k term acc : Z) : Z :=
  match fuel with
  | O => acc
  | S f =>
      if term =? 0 then acc
      else exp_series f A (k + 1) (Z.shiftr (term * A) P / k) (acc + term)
  end.

Fixpoint squarings (n : nat) (T : Z) : Z :=
  match n with
  | O => T
  | S n' => squarings n' (Z.shiftr (T * T) P)
  end.

(** [exp a] for [a >= 0]: the series at [a / 2^k < 1], squared [k] times. *)
Definition exp_fixed (A : Z) : Z :=
  let k := Z.max 0 (Z.log2 A - P + 1) in
  squarings (Z.to_nat k) (exp_series 200 (Z.shiftr A k) 1 (Z.shiftl 1 P) 0).

(** [np.exp]; for a negative argument, the reciprocal of [exp] at its
    absolute value.  Beyond 2048 in absolute value the result has left the
    doubles. *)
Definition np_exp (x : float) : float :=
  match x with
  | S754_zero _ => of_Z 1
  | S754_infinity true => zero
  | S754_infinity false => x
  | S754_nan => S754_nan
  | S754_finite s m e =>
      let A := fixed m e in
      if P + 11 <=? Z.log2 A then (if s then zero else S754_infinity false)
      else
        let T := exp_fixed A in
        if s
        then let n := Z.log2 T + 120 in
             binary_normalize prec emax
               (2 * (Z.shiftl 1 n / T) + 1) (P - n - 1) false
        else binary_normalize prec emax (2 * T + 1) (- (P + 1)) false
  end.

(** [sum_k (-1)^k x^(2k+1) / (2k+1)!] for [x >= 0], term by term. *)
Fixpoint sin_series (fuel : nat) (X2 k term : Z) (plus : bool) (acc : Z) : Z :=
  match fuel with
  | O => acc
  | S f =>
      if term =? 0 then acc
      else sin_series f X2 (k + 1)
             (Z.shiftr (term * X2) P / ((2 * k) * (2 * k + 1)))
             (negb plus) (if plus then acc + term else acc - term)
  end.

(** [np.sin], by the series without range reduction: right for arguments
    up to a few tens in absolute value; the program calls it on [h / 4] for
    [h] from 0 to 23 only.  Below [2^-27] the sine rounds to its argument. *)
Definition np_sin (x : float) : float :=
  match x with
  | S754_zero _ => x
  | S754_infinity _ => S754_nan
  | S754_nan => S754_nan
  | S754_finite s m e =>
      if e + Z.log2 (Zpos m) <? - 27 then x
      else
        let A := fixed m e in
        let S := sin_series 400 (Z.shiftr (A * A) P) 1 A true 0 in
        let S := if s then - S else S in
        binary_normalize prec emax
          (if 0 <=? S then 2 * S + 1 else 2 * S - 1) (- (P + 1)) false
  end.

End B64.

(** ** [update_logic] in binary64

    The same program as above with [B64] arithmetic.  A scalar carries
    the Python type that holds it, a built-in [float] or an [np.float64]:
    the two compute alike and differ only in the division by zero.  The
    inputs are Python floats, as in [__init__]; an element of an array and
    whatever is computed from one is an [np.float64]. *)

Module F64.

Local Open Scope Z_scope.

Inductive kind : Set :=
| PyFloat
| NpFloat64.

Definition num : Type := kind * B64.float.

Definition py (x : B64.float) : num := (PyFloat, x).
Definition np (x : B64.float) : num := (NpFloat64, x).

Definition join (a b : kind) : kind :=
  match a, b with
  | PyFloat, PyFloat => PyFloat
  | _, _ => NpFloat64
  end.

Definition nadd (x y : num) : num :=
  (join (fst x) (fst y), B64.add (snd x) (snd y)).
Definition nsub (x y : num) : num :=
  (join (fst x) (fst y), B64.sub (snd x) (snd y)).
Definition nneg (x : num) : num := (fst x, SFopp (snd x)).
Definition nabs (x : num) : num := (fst x, SFabs (snd x)).
Definition nlt (x y : num) : bool := SFltb (snd x) (snd y).

(** [min]: the first of the smallest arguments, the object itself. *)
Definition min2 (best item : num) : num :=
  if nlt item best then item else best.
Definition min3 (a b c : num) : num := min2 (min2 a b) c.

Inductive exn : Set :=
| ZeroDivisionError.

Inductive outcome (A : Type) : Type :=
| Returns (a : A)
| Raises (e : exn).

Arguments Returns {A} a.
Arguments Raises {A} e.

Definition bind {A B : Type} (m : outcome A) (k : A -> outcome B)
  : outcome B :=
  match m with
  | Returns a => k a
  | Raises e => Raises e
  end.

(** [x / y]: Python raises on a zero divisor when both operands are
    built-in floats, numpy returns [inf] or [nan]. *)
Definition truediv (x y : num) : outcome num :=
  match fst x, fst y with
  | PyFloat, PyFloat =>
      if B64.is_zero (snd y) then Raises ZeroDivisionError
      else Returns (py (B64.div (snd x) (snd y)))
  | _, _ => Returns (np (B64.div (snd x) (snd y)))
  end.

Fixpoint for_each {St : Type} (hs : list nat)
         (body : nat -> St -> outcome St) (st : St) : outcome St :=
  match hs with
  | [] => Returns st
  | h :: hs' => bind (body h st) (for_each hs' body)
  end.

Record Sim : Type := mkSim {
  grid_active      : bool;
  scheduler_active : bool;
  grid_buy_price   : B64.float;
  grid_sell_price  : B64.float;
  hours            : list Z;
  solar            : list B64.float;
  wind             : list B64.float;
  load             : list B64.float;
  soc_history      : list B64.float;
  grid_flow        : list B64.float;
  total_cost       : B64.float
}.

(** Lines 43-45. *)
Definition solar_at (s_mul : B64.float) (h : Z) : B64.float :=
  B64.mul s_mul
    (B64.np_exp (B64.div (B64.of_Z (- ((h - 12) ^ 2)))
                         (B64.of_Z (2 * 3 ^ 2)))).

Definition wind_at (w_mul : B64.float) (h : Z) : B64.float :=
  B64.mul w_mul
    (B64.add (B64.lit 6 1)
       (B64.mul (B64.lit 4 1)
                (B64.np_sin (B64.div (B64.of_Z h) (B64.of_Z 4))))).

Definition load_at (l_mul : B64.float) (h : Z) : B64.float :=
  B64.mul l_mul
    (B64.add
       (B64.add (B64.of_Z 1)
          (B64.mul (B64.lit 8 1)
             (B64.np_exp (B64.div (B64.of_Z (- ((h - 9) ^ 2)))
                                  (B64.of_Z 2)))))
       (B64.mul (B64.lit 12 1)
          (B64.np_exp (B64.div (B64.of_Z (- ((h - 19) ^ 2)))
                               (B64.of_Z 4))))).

Definition idx (a : list B64.float) (h : nat) : B64.float := nth h a S754_nan.

(** Lines 42-49. *)
Definition prepare (self : Sim) (s_mul w_mul l_mul b_cap : B64.float)
  : Sim * num :=
  let hs := Py.arange 24 in
  (mkSim (grid_active self) (scheduler_active self)
         (grid_buy_price self) (grid_sell_price self)
         hs (map (solar_at s_mul) hs) (map (wind_at w_mul) hs)
         (map (load_at l_mul) hs) [] [] B64.zero,
   py (B64.mul b_cap (B64.lit 5 1))).

(** [net] of hour [h]: [solar[h] + wind[h] + d_mul - load[h]]. *)
Definition net_of (self : Sim) (d_mul : B64.float) (h : nat) : num :=
  nsub (nadd (nadd (np (idx (solar self) h)) (np (idx (wind self) h)))
             (py d_mul))
       (np (idx (load self) h)).

(** Lines 52-76. *)
Definition hour_body (d_mul b_cap : B64.float) (h : nat) (st : Sim * num)
  : outcome (Sim * num) :=
  let '(self, soc) := st in
  let net := net_of self d_mul h in
  let '(soc, flow) :=
    if scheduler_active self && ((10 <=? h)%nat && (h <=? 14)%nat) then
      let charge_power := min2 (py (B64.lit 250 1)) (nsub (py b_cap) soc) in
      let soc := nadd soc charge_power in
      (soc, if grid_active self then nsub charge_power net else py B64.zero)
    else if nlt (py B64.zero) net then
      let charge := min3 net (nsub (py b_cap) soc) (py (B64.lit 200 1)) in
      let soc := nadd soc charge in
      (soc, if grid_active self then nneg (nsub net charge) else py B64.zero)
    else
      let needed := nabs net in
      let disch := min3 needed soc (py (B64.lit 200 1)) in
      let soc := nsub soc disch in
      (soc, if grid_active self then nsub needed disch else py B64.zero) in
  bind (truediv soc (py b_cap)) (fun q =>
  let cost :=
    if nlt (py B64.zero) flow
    then B64.add (total_cost self) (B64.mul (snd flow) (grid_buy_price self))
    else B64.add (total_cost self) (B64.mul (snd flow) (grid_sell_price self))
  in
  Returns
    (mkSim (grid_active self) (scheduler_active self)
           (grid_buy_price self) (grid_sell_price self)
           (hours self) (solar self) (wind self) (load self)
           (soc_history self ++ [B64.mul (snd q) (B64.of_Z 100)])
           (grid_flow self ++ [snd flow]) cost,
     soc)).

Definition run_hours (n : nat) (self : Sim)
           (s_mul w_mul d_mul l_mul b_cap : B64.float) : outcome (Sim * num) :=
  for_each (Py.range n) (hour_body d_mul b_cap)
           (prepare self s_mul w_mul l_mul b_cap).

Definition update_logic (self : Sim)
           (s_mul w_mul d_mul l_mul b_cap : B64.float) : outcome Sim :=
  bind (run_hours 24 self s_mul w_mul d_mul l_mul b_cap)
       (fun st => Returns (fst st)).

(** The object as [__init__] sets it up before its first run. *)
Definition fresh : Sim :=
  mkSim true false (B64.lit 15 2) (B64.lit 8 2) [] [] [] [] [] [] B64.zero.

(** The local [soc] when hour [h] starts and when it ends. *)
Definition soc_before (h : nat) (self : Sim)
           (s_mul w_mul d_mul l_mul b_cap : B64.float) : outcome B64.float :=
  bind (run_hours h self s_mul w_mul d_mul l_mul b_cap)
       (fun st => Returns (snd (snd st))).

Definition soc_after (h : nat) (self : Sim)
           (s_mul w_mul d_mul l_mul b_cap : B64.float) : outcome B64.float :=
  soc_before (S h) self s_mul w_mul d_mul l_mul b_cap.

(** What iteration [h] of the loop reads and records: the charge it
    starts from, [net], the charge it ends with, and the two values it
    appends to [grid_flow] and [soc_history]. *)
Record HourView : Type := mkHourView {
  soc_kwh_before : B64.float;
  net            : B64.float;
  soc_kwh_after  : B64.float;
  flow           : B64.float;
  soc_percent    : B64.float
}.

Definition hour_view (h : nat) (self : Sim)
           (s_mul w_mul d_mul l_mul b_cap : B64.float) : outcome HourView :=
  bind (run_hours h self s_mul w_mul d_mul l_mul b_cap) (fun st0 =>
  bind (hour_body d_mul b_cap h st0) (fun st1 =>
  Returns (mkHourView (snd (snd st0))
                      (snd (net_of (fst st0) d_mul h))
                      (snd (snd st1))
                      (idx (grid_flow (fst st1)) h)
                      (idx (soc_history (fst st1)) h)))).

End F64.

(** * Properties *)

(** ** The loop combinator *)

Lemma for_each_app {St : Type} (body : nat -> St -> result St) :
  forall (xs ys : list nat) (st : St),
    for_each (xs ++ ys) body st
    = bind (for_each xs body st) (for_each ys body).
Proof.
  induction xs as [|x xs IH]; intros ys st; simpl.
  - reflexivity.
  - destruct (body x st) as [st'|e]; simpl; [apply IH | reflexivity].
Qed.

Lemma range_S (n : nat) : range (S n) = range n ++ [n].
Proof. unfold range. rewrite seq_S. reflexivity. Qed.

Lemma run_hours_S (n : nat) (self : Sim) (s_mul w_mul d_mul l_mul b_cap : R) :
  run_hours (S n) self s_mul w_mul d_mul l_mul b_cap
  = bind (run_hours n self s_mul w_mul d_mul l_mul b_cap)
         (hour_body d_mul b_cap n).
Proof.
  unfold run_hours. rewrite range_S, for_each_app.
  destruct (for_each (range n) _ _) as [st|e]; simpl; [|reflexivity].
  destruct (hour_body d_mul b_cap n st); reflexivity.
Qed.

(** ** The profiles *)

Lemma idx_map_arange (f : Z -> R) (n h : nat) :
  (h < n)%nat -> idx (map f (arange n)) h = f (Z.of_nat h).
Proof.
  intros Hh. unfold idx, arange.
  rewrite (nth_indep _ 0 (f (Z.of_nat 0))) by (rewrite !length_map, length_seq; exact Hh).
  rewrite map_map.
  rewrite (map_nth (fun x => f (Z.of_nat x)) (seq 0 n) 0%nat h).
  rewrite seq_nth by exact Hh. reflexivity.
Qed.

(** ** One iteration *)

Lemma hour_body_ok (d_mul b_cap : R) (h : nat) (self : Sim) (soc : R) :
  b_cap <> 0 ->
  exists soc' flow,
    hour_body d_mul b_cap h (self, soc)
    = Ok (record_hour self flow (soc' / b_cap * 100), soc')
    /\ dispatch self b_cap h
         (idx (solar self) h + idx (wind self) h + d_mul - idx (load self) h)
         soc soc' flow.
Proof.
  intros Hb. unfold hour_body, truediv.
  destruct (Req_dec_T b_cap 0) as [E|_]; [contradiction|].
  destruct (scheduler_active self && ((10 <=? h)%nat && (h <=? 14)%nat))
    eqn:Hw.
  - apply andb_true_iff in Hw. destruct Hw as [Hs Hw].
    apply andb_true_iff in Hw. destruct Hw as [H1 H2].
    apply Nat.leb_le in H1. apply Nat.leb_le in H2.
    do 2 eexists. split.
    2:{ apply dispatch_scheduled; [exact Hs | split; assumption]. }
    unfold record_hour, bind. destruct (Rlt_dec 0 _); reflexivity.
  - assert (Hn : scheduler_active self = false \/ ~ in_window h).
    { apply andb_false_iff in Hw. destruct Hw as [Hs|Hw]; [left; exact Hs|].
      right. intros [H1 H2]. apply Nat.leb_le in H1. apply Nat.leb_le in H2.
      rewrite H1, H2 in Hw. discriminate. }
    destruct (Rlt_dec 0 _) as [Hnet|Hnet]; do 2 eexists.
    + split; [|apply dispatch_surplus; [exact Hn | exact Hnet]].
      unfold record_hour, bind. destruct (Rlt_dec 0 _); reflexivity.
    + split; [|apply dispatch_deficit; [exact Hn | lra]].
      unfold record_hour, bind. destruct (Rlt_dec 0 _); reflexivity.
Qed.

Lemma hour_body_cap (d_mul b_cap : R) (h : nat) (st st' : Sim * R) :
  hour_body d_mul b_cap h st = Ok st' -> b_cap <> 0.
Proof.
  intros H Hb. destruct st as [self soc].
  unfold hour_body, truediv in H.
  destruct (Req_dec_T b_cap 0) as [_|N]; [|contradiction].
  destruct (scheduler_active self && _); [discriminate H|].
  destruct (Rlt_dec 0 _); discriminate H.
Qed.

Lemma dispatch_config (a b : Sim) (b_cap : R) (h : nat) (net soc soc' flow : R) :
  same_config a b ->
  dispatch a b_cap h net soc soc' flow -> dispatch b b_cap h net soc soc' flow.
Proof.
  intros (Hg & Hs & _ & _) D. destruct D; rewrite Hg.
  - apply dispatch_scheduled; [congruence | assumption].
  - apply dispatch_surplus; [|assumption].
    destruct H; [left; congruence | right; assumption].
  - apply dispatch_deficit; [|assumption].
    destruct H; [left; congruence | right; assumption].
Qed.

(** ** The run, hour by hour *)

Section Run.

Variable self : Sim.
Variables s_mul w_mul d_mul l_mul b_cap : R.

Local Abbreviation prepared := (prepared_from self s_mul w_mul l_mul).

Lemma prepared_prepare : prepared (fst (prepare self s_mul w_mul l_mul b_cap)).
Proof. repeat split. Qed.

Lemma prepared_net (s : Sim) (h : nat) :
  prepared s -> (h < 24)%nat ->
  idx (solar s) h + idx (wind s) h + d_mul - idx (load s) h
  = net_at s_mul w_mul d_mul l_mul h.
Proof.
  intros (_ & _ & Hs & Hw & Hl) Hh. rewrite Hs, Hw, Hl.
  rewrite !idx_map_arange by exact Hh. reflexivity.
Qed.

Local Abbreviation run n := (run_hours n self s_mul w_mul d_mul l_mul b_cap).

(** A successful prefix of the loop keeps the configuration and has
    appended one entry per hour to each output. *)
Lemma run_hours_shape (n : nat) (s : Sim) (soc : R) :
  run n = Ok (s, soc) ->
  prepared s /\ length (grid_flow s) = n /\ length (soc_history s) = n.
Proof.
  revert s soc. induction n as [|n IH]; intros s soc H.
  - injection H as <- <-. split; [apply prepared_prepare | split; reflexivity].
  - rewrite run_hours_S in H.
    destruct (run n) as [[s0 soc0]|e]; [|discriminate H].
    simpl in H. destruct (IH s0 soc0 eq_refl) as (P & Lg & Lh).
    pose proof (hour_body_cap _ _ _ _ _ H) as Hb.
    destruct (hour_body_ok d_mul b_cap n s0 soc0 Hb) as (soc1 & flow & E & _).
    rewrite E in H. injection H as <- <-.
    split; [exact P|]. unfold record_hour; simpl.
    rewrite !length_app, Lg, Lh. simpl. split; lia.
Qed.

(** One more hour, when the division cannot fail. *)
Lemma run_hours_next (n : nat) (s : Sim) (soc : R) :
  b_cap <> 0 -> (n < 24)%nat ->
  run n = Ok (s, soc) ->
  exists soc' flow,
    run (S n) = Ok (record_hour s flow (soc' / b_cap * 100), soc')
    /\ dispatch self b_cap n (net_at s_mul w_mul d_mul l_mul n) soc soc' flow.
Proof.
  intros Hb Hn H.
  destruct (run_hours_shape n s soc H) as (P & _ & _).
  destruct (hour_body_ok d_mul b_cap n s soc Hb) as (soc' & flow & E & D).
  exists soc', flow. split.
  - rewrite run_hours_S, H. exact E.
  - rewrite <- (prepared_net s n P Hn).
    apply (dispatch_config s self); [apply P | exact D].
Qed.

(** With a non-zero capacity every prefix of the loop completes. *)
Lemma run_hours_total (n : nat) :
  b_cap <> 0 -> (n <= 24)%nat -> exists s soc, run n = Ok (s, soc).
Proof.
  intros Hb. induction n as [|n IH]; intros Hn.
  - do 2 eexists. reflexivity.
  - destruct IH as (s & soc & H); [lia|].
    destruct (run_hours_next n s soc Hb) as (soc' & flow & E & _);
      [lia | exact H |].
    do 2 eexists. exact E.
Qed.

(** Entries already recorded are never touched again. *)
Lemma run_hours_stable (h n m : nat) (sn sm : Sim) (socn socm : R) :
  (h < n)%nat -> (n <= m)%nat ->
  run n = Ok (sn, socn) -> run m = Ok (sm, socm) ->
  idx (grid_flow sm) h = idx (grid_flow sn) h /\
  idx (soc_history sm) h = idx (soc_history sn) h.
Proof.
  intros Hh Hnm Hn. revert sm socm.
  induction Hnm as [|m Hnm IH]; intros sm socm Hm.
  - rewrite Hn in Hm. injection Hm as <- <-. split; reflexivity.
  - rewrite run_hours_S in Hm.
    destruct (run m) as [[s0 soc0]|e] eqn:E0; [|discriminate Hm].
    simpl in Hm. destruct (IH s0 soc0 eq_refl) as (Ig & Ih).
    destruct (run_hours_shape m s0 soc0 E0) as (_ & Lg & Lh).
    pose proof (hour_body_cap _ _ _ _ _ Hm) as Hb.
    destruct (hour_body_ok d_mul b_cap m s0 soc0 Hb) as (soc1 & flow & E & _).
    rewrite E in Hm. injection Hm as <- <-.
    unfold record_hour, idx; simpl.
    rewrite !app_nth1 by lia. split; [exact Ig | exact Ih].
Qed.

Lemma update_logic_run (s : Sim) :
  update_logic self s_mul w_mul d_mul l_mul b_cap = Ok s <->
  exists soc, run 24%nat = Ok (s, soc).
Proof.
  unfold update_logic. split.
  - destruct (run 24%nat) as [[s0 soc0]|e]; simpl; intros H;
      [|discriminate H].
    injection H as <-. exists soc0. reflexivity.
  - intros (soc & ->). reflexivity.
Qed.

(** The whole day at once: the call returns, and every hour [h] obeys
    one of the three dispatch rules and is recorded at position [h]. *)
Lemma day_trace :
  b_cap <> 0 ->
  exists s',
    update_logic self s_mul w_mul d_mul l_mul b_cap = Ok s'
    /\ prepared s'
    /\ length (grid_flow s') = 24%nat
    /\ length (soc_history s') = 24%nat
    /\ forall h, (h < 24)%nat ->
         exists soc0 soc1 flow,
           soc_before h self s_mul w_mul d_mul l_mul b_cap = Ok soc0
           /\ soc_after h self s_mul w_mul d_mul l_mul b_cap = Ok soc1
           /\ dispatch self b_cap h (net_at s_mul w_mul d_mul l_mul h)
                       soc0 soc1 flow
           /\ idx (grid_flow s') h = flow
           /\ idx (soc_history s') h = soc1 / b_cap * 100.
Proof.
  intros Hb.
  destruct (run_hours_total 24 Hb (le_n _)) as (s' & soc' & H24).
  exists s'. split; [apply update_logic_run; exists soc'; exact H24|].
  destruct (run_hours_shape _ _ _ H24) as (P & Lg & Lh).
  repeat (split; [assumption|]).
  intros h Hh.
  destruct (run_hours_total h Hb) as (s0 & soc0 & H0); [lia|].
  destruct (run_hours_next h s0 soc0 Hb Hh H0) as (soc1 & flow & H1 & D).
  exists soc0, soc1, flow.
  unfold soc_after, soc_before. rewrite H0, H1. simpl.
  repeat (split; [reflexivity || assumption|]).
  destruct (run_hours_shape _ _ _ H0) as (_ & Lg0 & Lh0).
  destruct (run_hours_stable h (S h) 24 _ _ _ _ (Nat.lt_succ_diag_r h) Hh H1 H24)
    as (Eg & Eh).
  rewrite Eg, Eh. unfold record_hour, idx; simpl.
  rewrite !app_nth2 by lia. rewrite Lg0, Lh0, Nat.sub_diag. simpl.
  split; reflexivity.
Qed.

End Run.

(** ** Cost accumulation *)

Lemma tariff_sum_snoc (buy sell : R) (flows : list R) (f : R) :
  tariff_sum buy sell (flows ++ [f])
  = tariff_sum buy sell flows + (if Rlt_dec 0 f then f * buy else f * sell).
Proof. unfold tariff_sum. rewrite fold_left_app. reflexivity. Qed.

Lemma tariff_sum_cost_sum (flows : list R) :
  tariff_sum 0.15 0.08 flows = cost_sum flows.
Proof.
  induction flows as [|f flows IH] using rev_ind.
  - reflexivity.
  - rewrite tariff_sum_snoc, IH. unfold cost_sum.
    rewrite fold_left_app. reflexivity.
Qed.

Lemma tariff_sum_zero (buy sell : R) (flows : list R) :
  Forall (fun f => f = 0) flows -> tariff_sum buy sell flows = 0.
Proof.
  induction flows as [|f flows IH] using rev_ind; intros H.
  - reflexivity.
  - apply Forall_app in H. destruct H as [H1 H2].
    rewrite tariff_sum_snoc, (IH H1).
    inversion H2 as [|? ? Hf _]; subst.
    destruct (Rlt_dec 0 0); lra.
Qed.

Lemma run_hours_cost (self : Sim) (s_mul w_mul d_mul l_mul b_cap : R) :
  forall (n : nat) (s : Sim) (soc : R),
    run_hours n self s_mul w_mul d_mul l_mul b_cap = Ok (s, soc) ->
    total_cost s
    = tariff_sum (grid_buy_price self) (grid_sell_price self) (grid_flow s).
Proof.
  induction n as [|n IH]; intros s soc H.
  - injection H as <- <-. unfold tariff_sum; simpl. lra.
  - rewrite run_hours_S in H.
    destruct (run_hours n _ _ _ _ _ _) as [[s0 soc0]|e] eqn:E0;
      [|discriminate H].
    simpl in H.
    destruct (run_hours_shape _ _ _ _ _ _ _ _ _ E0)
      as (((_ & _ & Hb & Hs) & _) & _).
    pose proof (hour_body_cap _ _ _ _ _ H) as Hc.
    destruct (hour_body_ok d_mul b_cap n s0 soc0 Hc) as (soc1 & flow & E & _).
    rewrite E in H. injection H as <- <-.
    unfold record_hour; simpl.
    rewrite tariff_sum_snoc, (IH s0 soc0 eq_refl), Hb, Hs. reflexivity.
Qed.

Lemma update_logic_cost (self : Sim) (s_mul w_mul d_mul l_mul b_cap : R) (s : Sim) :
  update_logic self s_mul w_mul d_mul l_mul b_cap = Ok s ->
  same_config s self /\
  total_cost s
  = tariff_sum (grid_buy_price self) (grid_sell_price self) (grid_flow s).
Proof.
  intros H. apply update_logic_run in H. destruct H as (soc & H). split.
  - apply (run_hours_shape _ _ _ _ _ _ _ _ _ H).
  - apply (run_hours_cost _ _ _ _ _ _ _ _ _ H).
Qed.

(** ** The session *)

Lemma new_sim_returns : exists s, new_sim = Ok s.
Proof.
  unfold new_sim.
  destruct (day_trace fresh init_solar init_wind init_diesel init_load init_batt)
    as (s & H & _).
  - unfold init_batt. lra.
  - exists s. exact H.
Qed.

Lemma reachable_tariff (s : Sim) :
  reachable s -> grid_buy_price s = 0.15 /\ grid_sell_price s = 0.08.
Proof.
  induction 1 as [s H | s a b c d e s' _ IH H | s _ IH | s _ IH | s _ IH].
  - apply update_logic_cost in H. destruct H as ((_ & _ & Hb & Hs) & _).
    rewrite Hb, Hs. split; reflexivity.
  - apply update_logic_cost in H. destruct H as ((_ & _ & Hb & Hs) & _).
    rewrite Hb, Hs. exact IH.
  - exact IH.
  - exact IH.
  - exact IH.
Qed.

(** ** The clamps *)

Lemma Rmin_cases (a b : R) :
  Rmin a b <= a /\ Rmin a b <= b /\ (Rmin a b = a \/ Rmin a b = b).
Proof.
  split; [apply Rmin_l|]. split; [apply Rmin_r|].
  unfold Rmin. destruct (Rle_dec a b); [left | right]; reflexivity.
Qed.

Lemma min3_cases (a b c : R) :
  min3 a b c <= a /\ min3 a b c <= b /\ min3 a b c <= c /\
  (min3 a b c = a \/ min3 a b c = b \/ min3 a b c = c).
Proof.
  unfold min3.
  destruct (Rmin_cases b c) as (H1 & H2 & H3).
  destruct (Rmin_cases a (Rmin b c)) as (H4 & H5 & H6).
  repeat split; lra.
Qed.

Lemma dispatch_nonneg
  (self : Sim) (b_cap : R) (h : nat) (net soc soc' flow : R) :
  dispatch self b_cap h net soc soc' flow ->
  0 <= b_cap -> 0 <= soc -> 0 <= soc'.
Proof.
  intros D Hb Hs. destruct D as [_ _ | _ Hnet | _ Hnet].
  - destruct (Rmin_cases 25.0 (b_cap - soc)) as (_ & _ & [E|E]); lra.
  - destruct (min3_cases net (b_cap - soc) 20.0) as (_ & _ & _ & [E|[E|E]]);
      lra.
  - destruct (min3_cases (Rabs net) soc 20.0) as (_ & H2 & _ & _). lra.
Qed.

Lemma soc_before_nonneg
  (self : Sim) (s_mul w_mul d_mul l_mul b_cap : R) (h : nat) :
  0 < b_cap -> (h <= 24)%nat ->
  exists soc,
    soc_before h self s_mul w_mul d_mul l_mul b_cap = Ok soc /\ 0 <= soc.
Proof.
  intros Hb. assert (Hb0 : b_cap <> 0) by lra.
  induction h as [|h IH]; intros Hh.
  - exists (b_cap * 0.5). split; [reflexivity | lra].
  - destruct IH as (soc & E & Hr); [lia|].
    destruct (day_trace self s_mul w_mul d_mul l_mul b_cap Hb0)
      as (s' & _ & _ & _ & _ & T).
    destruct (T h) as (soc0 & soc1 & flow & E0 & E1 & D & _); [lia|].
    rewrite E in E0. injection E0 as <-.
    exists soc1. split; [exact E1|].
    apply (dispatch_nonneg _ _ _ _ _ _ _ D); lra.
Qed.

Lemma prepare_config (a b : Sim) (s_mul w_mul l_mul b_cap : R) :
  same_config a b ->
  prepare a s_mul w_mul l_mul b_cap = prepare b s_mul w_mul l_mul b_cap.
Proof.
  destruct a, b. unfold same_config; simpl.
  intros (-> & -> & -> & ->). reflexivity.
Qed.

Lemma valid_input_cap (s_mul w_mul d_mul l_mul b_cap : R) :
  valid_input s_mul w_mul d_mul l_mul b_cap -> 0 < b_cap /\ b_cap <> 0.
Proof. intros (_ & _ & _ & _ & H). split; lra. Qed.

Lemma reactive_not_scheduled (self : Sim) (h : nat) :
  scheduler_active self = false \/ ~ in_window h ->
  scheduler_active self = true -> in_window h -> False.
Proof. intros [H|H] Hs Hw; [congruence | exact (H Hw)]. Qed.

(** ** Concrete runs *)

(** The cost sign convention: importing 10 kW costs 1.5, exporting 10 kW
    earns 0.8, no flow costs nothing. *)
Example hour_cost_import : hour_cost 10 = 1.5.
Proof. unfold hour_cost. destruct (Rlt_dec 0 10); lra. Qed.

Example hour_cost_export : hour_cost (-10) = -0.8.
Proof. unfold hour_cost. destruct (Rlt_dec 0 (-10)); lra. Qed.

Example hour_cost_idle : hour_cost 0 = 0.
Proof. unfold hour_cost. destruct (Rlt_dec 0 0); lra. Qed.

(** Diesel alone at 30 kW, no load, a 100 kWh battery: hour 0 has a surplus
    of 30, charges the 20 kW cap (50 to 70 kWh) and exports the other 10. *)
Example diesel_only_hour0 :
  exists s' soc_kwh,
    update_logic fresh 0 0 30 0 100 = Ok s'
    /\ soc_after 0 fresh 0 0 30 0 100 = Ok soc_kwh
    /\ soc_kwh = 70
    /\ idx (grid_flow s') 0 = -10
    /\ idx (soc_history s') 0 = 70.
Proof.
  destruct (day_trace fresh 0 0 30 0 100) as (s' & H & _ & _ & _ & T); [lra|].
  destruct (T 0%nat) as (soc0 & soc1 & flow & E0 & E1 & D & Eg & Eh); [lia|].
  exists s', soc1. split; [exact H|]. split; [exact E1|].
  change (Ok (100 * 0.5) = Ok soc0) in E0. injection E0 as <-.
  assert (Hn : net_at 0 0 30 0 0 = 30).
  { unfold net_at, solar_at, wind_at, load_at. ring. }
  rewrite Hn in D. rewrite Eg, Eh. clear Eg Eh E1.
  assert (Hm : min3 30 (100 - 100 * 0.5) 20.0 = 20).
  { destruct (min3_cases 30 (100 - 100 * 0.5) 20.0)
      as (_ & _ & H3 & [E|[E|E]]); lra. }
  destruct D as [Hs _ | _ _ | _ Hnet].
  - discriminate Hs.
  - rewrite Hm. simpl. repeat split; lra.
  - lra.
Qed.

(** In binary64 a capacity of 0.0 has two outcomes.  On the default
    multipliers hour 0 discharges nothing from a Python float [soc] and the
    division raises; with every multiplier at 0.0, [min] hands back the
    [np.float64] deficit, [soc] becomes an [np.float64], nothing is raised
    and the percentage recorded is [nan]. *)
Example zero_capacity_raises_binary64 :
  F64.hour_view 0 F64.fresh (B64.of_Z 50) (B64.of_Z 20) (B64.of_Z 10)
                (B64.of_Z 30) (B64.of_Z 0)
  = F64.Raises F64.ZeroDivisionError.
Proof. vm_cast_no_check (eq_refl (@F64.Raises F64.HourView F64.ZeroDivisionError)).
Qed.

Example zero_capacity_nan_binary64 :
  F64.hour_view 0 F64.fresh (B64.of_Z 0) (B64.of_Z 0) (B64.of_Z 0)
                (B64.of_Z 0) (B64.of_Z 0)
  = F64.Returns (F64.mkHourView B64.zero B64.zero B64.zero B64.zero S754_nan).
Proof. vm_cast_no_check
    (eq_refl (F64.Returns
                (F64.mkHourView B64.zero B64.zero B64.zero B64.zero S754_nan))).
Qed.

(** * The claims *)

(** C1, as stated, fails: a negative battery capacity is not rejected.
    With every multiplier at [0] and [b_cap = -10] the call returns, and
    hour 0 records a grid import of 5 kW and a percentage of 0. *)
Lemma negative_capacity_returns :
  -10 <= 0 /\
  exists s',
    update_logic fresh 0 0 0 0 (-10) = Ok s'
    /\ idx (grid_flow s') 0 = 5
    /\ idx (soc_history s') 0 = 0.
Proof.
  split; [lra|].
  destruct (day_trace fresh 0 0 0 0 (-10)) as (s' & H & _ & _ & _ & T); [lra|].
  exists s'. split; [exact H|].
  destruct (T 0%nat) as (soc0 & soc1 & flow & E0 & _ & D & Eg & Eh); [lia|].
  change (Ok (-10 * 0.5) = Ok soc0) in E0. injection E0 as <-.
  assert (Hn : net_at 0 0 0 0 0 = 0).
  { unfold net_at, solar_at, wind_at, load_at. ring. }
  rewrite Hn in D. rewrite Eg, Eh. clear Eg Eh.
  destruct D as [Hs _ | _ Hnet | _ _].
  - discriminate Hs.
  - lra.
  - rewrite Rabs_R0. simpl.
    destruct (min3_cases 0 (-10 * 0.5) 20.0) as (_ & H2 & _ & [E|[E|E]]);
      rewrite E; split; try lra.
Qed.

(** C1 (amended): [update_logic] validates nothing and has no
    [InvalidConfiguration] error.  For every input whose battery capacity
    is not zero, so for every input that satisfies the Data Model
    invariants and also for every negative capacity, the call does not
    fail: it runs the 24 hours and returns 24 grid flows and 24
    percentages. *)
Theorem update_logic_returns
  (self : Sim) (s_mul w_mul d_mul l_mul b_cap : R) :
  b_cap <> 0 ->
  exists s',
    update_logic self s_mul w_mul d_mul l_mul b_cap = Ok s'
    /\ length (grid_flow s') = 24%nat
    /\ length (soc_history s') = 24%nat.
Proof.
  intros Hb.
  destruct (day_trace self s_mul w_mul d_mul l_mul b_cap Hb)
    as (s' & H & _ & Lg & Lh & _).
  exists s'. repeat split; assumption.
Qed.

Lemma update_logic_returns_witness :
  100 <> 0 /\
  exists s',
    update_logic fresh 50 20 10 30 100 = Ok s'
    /\ length (grid_flow s') = 24%nat
    /\ length (soc_history s') = 24%nat.
Proof.
  split; [lra|]. apply (update_logic_returns fresh 50 20 10 30 100). lra.
Defined.




(** C3: for every valid input with the grid disconnected, every one of the
    24 recorded grid flows is [0] (whichever branch ran) and the total cost
    is [0]. *)
Theorem islanding
  (self : Sim) (s_mul w_mul d_mul l_mul b_cap : R) :
  valid_input s_mul w_mul d_mul l_mul b_cap ->
  grid_active self = false ->
  exists s',
    update_logic self s_mul w_mul d_mul l_mul b_cap = Ok s'
    /\ length (grid_flow s') = 24%nat
    /\ (forall h, (h < 24)%nat -> idx (grid_flow s') h = 0)
    /\ total_cost s' = 0.
Proof.
  intros Hv Hg. destruct (valid_input_cap _ _ _ _ _ Hv) as (_ & Hb).
  destruct (day_trace self s_mul w_mul d_mul l_mul b_cap Hb)
    as (s' & H & _ & Lg & _ & T).
  assert (Hz : forall h, (h < 24)%nat -> idx (grid_flow s') h = 0).
  { intros h Hh. destruct (T h Hh) as (soc0 & soc1 & flow & _ & _ & D & E & _).
    rewrite E. destruct D; rewrite Hg; reflexivity. }
  exists s'. repeat split; try assumption.
  destruct (update_logic_cost _ _ _ _ _ _ _ H) as (_ & ->).
  apply tariff_sum_zero. apply Forall_nth. intros i d Hi.
  rewrite (nth_indep _ d 0 Hi). apply Hz. lia.
Qed.

Lemma islanding_witness :
  valid_input 50 20 10 30 100 /\
  grid_active (toggle_grid fresh) = false /\
  exists s',
    update_logic (toggle_grid fresh) 50 20 10 30 100 = Ok s'
    /\ length (grid_flow s') = 24%nat
    /\ (forall h, (h < 24)%nat -> idx (grid_flow s') h = 0)
    /\ total_cost s' = 0.
Proof.
  assert (Hv : valid_input 50 20 10 30 100)
    by (unfold valid_input; repeat split; lra).
  split; [exact Hv|]. split; [reflexivity|].
  apply (islanding (toggle_grid fresh) 50 20 10 30 100 Hv). reflexivity.
Defined.

(** C4: for every valid input with the scheduler active and every hour [h]
    of 10..14, whatever the sign of [net], the battery is force-charged:
    its charge after the hour is its charge before plus
    [min(25.0, battery_capacity - soc_before)]; when the grid is connected
    the recorded grid flow of the hour is that charge power minus [net]. *)
Theorem scheduler_override
  (self : Sim) (s_mul w_mul d_mul l_mul b_cap : R) (h : nat) :
  valid_input s_mul w_mul d_mul l_mul b_cap ->
  scheduler_active self = true ->
  (10 <= h <= 14)%nat ->
  exists s' soc0 soc1,
    update_logic self s_mul w_mul d_mul l_mul b_cap = Ok s'
    /\ soc_before h self s_mul w_mul d_mul l_mul b_cap = Ok soc0
    /\ soc_after h self s_mul w_mul d_mul l_mul b_cap = Ok soc1
    /\ soc1 = soc0 + Rmin 25.0 (b_cap - soc0)
    /\ (grid_active self = true ->
        idx (grid_flow s') h
        = Rmin 25.0 (b_cap - soc0) - net_at s_mul w_mul d_mul l_mul h).
Proof.
  intros Hv Hs Hw. destruct (valid_input_cap _ _ _ _ _ Hv) as (_ & Hb).
  destruct (day_trace self s_mul w_mul d_mul l_mul b_cap Hb)
    as (s' & H & _ & _ & _ & T).
  destruct (T h) as (soc0 & soc1 & flow & E0 & E1 & D & Eg & _); [lia|].
  exists s', soc0, soc1. repeat (split; [assumption|]).
  destruct D as [_ _ | Hr _ | Hr _].
  - split; [reflexivity|]. intros Hg. rewrite Eg, Hg. reflexivity.
  - destruct (reactive_not_scheduled self h Hr Hs Hw).
  - destruct (reactive_not_scheduled self h Hr Hs Hw).
Qed.

Lemma scheduler_override_witness :
  valid_input 50 20 10 30 100 /\
  scheduler_active (toggle_scheduler fresh) = true /\
  (10 <= 12 <= 14)%nat /\
  exists s' soc0 soc1,
    update_logic (toggle_scheduler fresh) 50 20 10 30 100 = Ok s'
    /\ soc_before 12 (toggle_scheduler fresh) 50 20 10 30 100 = Ok soc0
    /\ soc_after 12 (toggle_scheduler fresh) 50 20 10 30 100 = Ok soc1
    /\ soc1 = soc0 + Rmin 25.0 (100 - soc0)
    /\ (grid_active (toggle_scheduler fresh) = true ->
        idx (grid_flow s') 12
        = Rmin 25.0 (100 - soc0) - net_at 50 20 10 30 12).
Proof.
  assert (Hv : valid_input 50 20 10 30 100)
    by (unfold valid_input; repeat split; lra).
  split; [exact Hv|]. split; [reflexivity|]. split; [lia|].
  apply (scheduler_override (toggle_scheduler fresh) 50 20 10 30 100 12 Hv);
    [reflexivity | lia].
Defined.

(** C5: for every valid input, in every reactive hour (scheduler inactive,
    or [h] outside 10..14): with [net > 0] the battery charges by
    [min(net, battery_capacity - soc, 20.0)] and a connected grid records
    [-(net - charge)]; with [net <= 0] it discharges by
    [min(abs(net), soc, 20.0)] and a connected grid records
    [abs(net) - discharge]. *)
Theorem reactive_dispatch
  (self : Sim) (s_mul w_mul d_mul l_mul b_cap : R) (h : nat) :
  valid_input s_mul w_mul d_mul l_mul b_cap ->
  (h < 24)%nat ->
  scheduler_active self = false \/ ~ (10 <= h <= 14)%nat ->
  exists s' soc0 soc1,
    let net := net_at s_mul w_mul d_mul l_mul h in
    update_logic self s_mul w_mul d_mul l_mul b_cap = Ok s'
    /\ soc_before h self s_mul w_mul d_mul l_mul b_cap = Ok soc0
    /\ soc_after h self s_mul w_mul d_mul l_mul b_cap = Ok soc1
    /\ (0 < net ->
        let charge := min3 net (b_cap - soc0) 20.0 in
        soc1 = soc0 + charge
        /\ (grid_active self = true -> idx (grid_flow s') h = - (net - charge)))
    /\ (net <= 0 ->
        let discharge := min3 (Rabs net) soc0 20.0 in
        soc1 = soc0 - discharge
        /\ (grid_active self = true ->
            idx (grid_flow s') h = Rabs net - discharge)).
Proof.
  intros Hv Hh Hr. destruct (valid_input_cap _ _ _ _ _ Hv) as (_ & Hb).
  destruct (day_trace self s_mul w_mul d_mul l_mul b_cap Hb)
    as (s' & H & _ & _ & _ & T).
  destruct (T h Hh) as (soc0 & soc1 & flow & E0 & E1 & D & Eg & _).
  exists s', soc0, soc1. cbv zeta. repeat (split; [assumption|]).
  destruct D as [Hs Hw | _ Hnet | _ Hnet].
  - destruct (reactive_not_scheduled self h Hr Hs Hw).
  - split; [intros _ | intros Hle; lra].
    split; [reflexivity|]. intros Hg. rewrite Eg, Hg. reflexivity.
  - split; [intros Hlt; lra | intros _].
    split; [reflexivity|]. intros Hg. rewrite Eg, Hg. reflexivity.
Qed.

Lemma reactive_dispatch_witness :
  valid_input 50 20 10 30 100 /\ (12 < 24)%nat /\
  (scheduler_active fresh = false \/ ~ (10 <= 12 <= 14)%nat) /\
  exists s' soc0 soc1,
    let net := net_at 50 20 10 30 12 in
    update_logic fresh 50 20 10 30 100 = Ok s'
    /\ soc_before 12 fresh 50 20 10 30 100 = Ok soc0
    /\ soc_after 12 fresh 50 20 10 30 100 = Ok soc1
    /\ (0 < net ->
        let charge := min3 net (100 - soc0) 20.0 in
        soc1 = soc0 + charge
        /\ (grid_active fresh = true -> idx (grid_flow s') 12 = - (net - charge)))
    /\ (net <= 0 ->
        let discharge := min3 (Rabs net) soc0 20.0 in
        soc1 = soc0 - discharge
        /\ (grid_active fresh = true ->
            idx (grid_flow s') 12 = Rabs net - discharge)).
Proof.
  assert (Hv : valid_input 50 20 10 30 100)
    by (unfold valid_input; repeat split; lra).
  split; [exact Hv|]. split; [lia|]. split; [left; reflexivity|].
  apply (reactive_dispatch fresh 50 20 10 30 100 12 Hv);
    [lia | left; reflexivity].
Defined.

(** C6: the tariff is fixed at [grid_buy_price = 0.15] and
    [grid_sell_price = 0.08] on every object a session can hold, and for
    every valid input [total_cost] is the sum over the 24 hours of
    [grid_flow[h] * 0.15] where the flow is positive and
    [grid_flow[h] * 0.08] where it is not. *)
Theorem total_cost_is_tariff_sum
  (self : Sim) (s_mul w_mul d_mul l_mul b_cap : R) :
  reachable self ->
  valid_input s_mul w_mul d_mul l_mul b_cap ->
  exists s',
    update_logic self s_mul w_mul d_mul l_mul b_cap = Ok s'
    /\ length (grid_flow s') = 24%nat
    /\ total_cost s' = cost_sum (grid_flow s')
    /\ grid_buy_price s' = 0.15
    /\ grid_sell_price s' = 0.08.
Proof.
  intros Hr Hv. destruct (valid_input_cap _ _ _ _ _ Hv) as (_ & Hb).
  destruct (day_trace self s_mul w_mul d_mul l_mul b_cap Hb)
    as (s' & H & _ & Lg & _).
  destruct (reachable_tariff self Hr) as (Pb & Ps).
  destruct (update_logic_cost _ _ _ _ _ _ _ H) as ((_ & _ & Cb & Cs) & Hc).
  exists s'. repeat split; try assumption; try congruence.
  rewrite Hc, Pb, Ps. apply tariff_sum_cost_sum.
Qed.

Lemma total_cost_is_tariff_sum_witness :
  exists self,
    reachable self /\ valid_input 50 20 10 30 100 /\
    exists s',
      update_logic self 50 20 10 30 100 = Ok s'
      /\ length (grid_flow s') = 24%nat
      /\ total_cost s' = cost_sum (grid_flow s')
      /\ grid_buy_price s' = 0.15
      /\ grid_sell_price s' = 0.08.
Proof.
  destruct new_sim_returns as (self & Hs).
  assert (Hv : valid_input 50 20 10 30 100)
    by (unfold valid_input; repeat split; lra).
  exists self. split; [exact (reach_new self Hs)|]. split; [exact Hv|].
  apply (total_cost_is_tariff_sum self 50 20 10 30 100 (reach_new self Hs) Hv).
Defined.

(** C7: every run seeds the battery at exactly [0.5 * battery_capacity]
    before hour 0, whatever an earlier run left on the object, and the
    percentage recorded for hour [h] is [(soc_kwh / battery_capacity) * 100]
    for the value [soc_kwh] has after the hour's update, hour 0 included. *)
Theorem seed_and_percentage
  (self : Sim) (s_mul w_mul d_mul l_mul b_cap : R) :
  soc_before 0 self s_mul w_mul d_mul l_mul b_cap = Ok (0.5 * b_cap)
  /\ (forall prior,
        same_config prior self ->
        update_logic prior s_mul w_mul d_mul l_mul b_cap
        = update_logic self s_mul w_mul d_mul l_mul b_cap)
  /\ (b_cap <> 0 ->
      exists s',
        update_logic self s_mul w_mul d_mul l_mul b_cap = Ok s'
        /\ length (soc_history s') = 24%nat
        /\ forall h, (h < 24)%nat ->
             exists soc_kwh,
               soc_after h self s_mul w_mul d_mul l_mul b_cap = Ok soc_kwh
               /\ idx (soc_history s') h = soc_kwh / b_cap * 100).
Proof.
  split; [|split].
  - unfold soc_before, run_hours; simpl. f_equal. lra.
  - intros prior Hc. unfold update_logic, run_hours.
    rewrite (prepare_config prior self _ _ _ _ Hc). reflexivity.
  - intros Hb. destruct (day_trace self s_mul w_mul d_mul l_mul b_cap Hb)
      as (s' & H & _ & _ & Lh & T).
    exists s'. repeat (split; [assumption|]).
    intros h Hh.
    destruct (T h Hh) as (soc0 & soc1 & flow & _ & E1 & _ & _ & Eh).
    exists soc1. split; [exact E1|]. exact Eh.
Qed.

Lemma seed_and_percentage_witness :
  100 <> 0 /\
  soc_before 0 fresh 50 20 10 30 100 = Ok (0.5 * 100)
  /\ (forall prior,
        same_config prior fresh ->
        update_logic prior 50 20 10 30 100
        = update_logic fresh 50 20 10 30 100)
  /\ exists s',
       update_logic fresh 50 20 10 30 100 = Ok s'
       /\ length (soc_history s') = 24%nat
       /\ forall h, (h < 24)%nat ->
            exists soc_kwh,
              soc_after h fresh 50 20 10 30 100 = Ok soc_kwh
              /\ idx (soc_history s') h = soc_kwh / 100 * 100.
Proof.
  split; [lra|].
  destruct (seed_and_percentage fresh 50 20 10 30 100) as (Hseed & Hprior & Hpct).
  split; [exact Hseed|]. split; [exact Hprior|]. apply Hpct. lra.
Defined.

(** C8: for every [wind_multiplier >= 0] and every hour [h] of 0..23 the
    wind profile is [wind_multiplier * (0.6 + 0.4*sin(h/4))], which lies
    between 0.2 times and 1.0 times the multiplier; the loop leaves the
    profile as computed. *)
Theorem wind_profile_bounds
  (self : Sim) (s_mul w_mul d_mul l_mul b_cap : R) (h : nat) :
  0 <= w_mul -> (h < 24)%nat ->
  let w := idx (wind (fst (prepare self s_mul w_mul l_mul b_cap))) h in
  w = w_mul * (0.6 + 0.4 * sin (INR h / 4))
  /\ 0.2 * w_mul <= w <= 1.0 * w_mul
  /\ forall s',
       update_logic self s_mul w_mul d_mul l_mul b_cap = Ok s' ->
       idx (wind s') h = w.
Proof.
  intros Hw Hh w.
  assert (Ew : w = w_mul * (0.6 + 0.4 * sin (INR h / 4))).
  { unfold w.
    change (wind (fst (prepare self s_mul w_mul l_mul b_cap)))
      with (map (wind_at w_mul) (arange 24)).
    rewrite (idx_map_arange (wind_at w_mul) 24 h Hh).
    unfold wind_at. rewrite <- INR_IZR_INZ. reflexivity. }
  split; [exact Ew|]. split.
  - rewrite Ew. pose proof (SIN_bound (INR h / 4)) as (Hl & Hu).
    split; nra.
  - intros s' H. apply update_logic_run in H. destruct H as (soc & H).
    destruct (run_hours_shape _ _ _ _ _ _ _ _ _ H) as ((_ & _ & _ & E & _) & _).
    rewrite E. reflexivity.
Qed.

Lemma wind_profile_bounds_witness :
  0 <= 20 /\ (19 < 24)%nat /\
  let w := idx (wind (fst (prepare fresh 50 20 30 100))) 19 in
  w = 20 * (0.6 + 0.4 * sin (INR 19 / 4))
  /\ 0.2 * 20 <= w <= 1.0 * 20
  /\ forall s',
       update_logic fresh 50 20 10 30 100 = Ok s' ->
       idx (wind s') 19 = w.
Proof.
  split; [lra|]. split; [lia|].
  apply (wind_profile_bounds fresh 50 20 10 30 100 19); [lra | lia].
Defined.

(** C9, as stated, fails in the arithmetic of the code.  Default flags
    (grid connected), every multiplier 0 except diesel at 0.1, capacity
    100: hour 0 charges 0.1 into a battery at 50.0 and records a flow of
    -0.0.  The change of charge, 50.1 - 50.0, is 0.10000000000000142 in
    doubles, and [net + flow] is 0.1. *)
Lemma energy_balance_inexact_binary64 :
  F64.hour_view 0 F64.fresh (B64.of_Z 0) (B64.of_Z 0) (B64.lit 1 1)
                (B64.of_Z 0) (B64.of_Z 100)
  = F64.Returns
      (F64.mkHourView (S754_finite false 7036874417766400 (-47))
                      (S754_finite false 7205759403792794 (-56))
                      (S754_finite false 7050948166601933 (-47))
                      (S754_zero true)
                      (S754_finite false 7050948166601933 (-47)))
  /\ B64.sub (S754_finite false 7050948166601933 (-47))
             (S754_finite false 7036874417766400 (-47))
     = S754_finite false 7205759403792896 (-56)
  /\ B64.add (S754_finite false 7205759403792794 (-56)) (S754_zero true)
     = S754_finite false 7205759403792794 (-56)
  /\ SFeqb (S754_finite false 7205759403792896 (-56))
           (S754_finite false 7205759403792794 (-56)) = false.
Proof. vm_cast_no_check (conj (eq_refl (F64.Returns
      (F64.mkHourView (S754_finite false 7036874417766400 (-47))
                      (S754_finite false 7205759403792794 (-56))
                      (S754_finite false 7050948166601933 (-47))
                      (S754_zero true)
                      (S754_finite false 7050948166601933 (-47)))))
    (conj (eq_refl (S754_finite false 7205759403792896 (-56)))
          (conj (eq_refl (S754_finite false 7205759403792794 (-56)))
                (eq_refl false)))).
Qed.

(** C9 (amended): for every valid input with the grid connected and every
    hour [h] of 0..23, the battery and the grid flow of the hour come from
    one and the same amount [a].  Scheduled hour: [soc_after = soc_before
    + a] and [grid_flow[h] = a - net]; surplus hour: [soc_after =
    soc_before + a] and [grid_flow[h] = -(net - a)]; deficit hour:
    [soc_after = soc_before - a] and [grid_flow[h] = abs(net) - a], where
    [net = gen - load[h]]. *)
Theorem flow_from_battery_amount
  (self : Sim) (s_mul w_mul d_mul l_mul b_cap : R) (h : nat) :
  valid_input s_mul w_mul d_mul l_mul b_cap ->
  grid_active self = true ->
  (h < 24)%nat ->
  exists s' soc_prev soc_next a,
    let gen := solar_at s_mul (Z.of_nat h) + wind_at w_mul (Z.of_nat h)
               + d_mul in
    let net := gen - load_at l_mul (Z.of_nat h) in
    update_logic self s_mul w_mul d_mul l_mul b_cap = Ok s'
    /\ soc_before h self s_mul w_mul d_mul l_mul b_cap = Ok soc_prev
    /\ soc_after h self s_mul w_mul d_mul l_mul b_cap = Ok soc_next
    /\ ((scheduler_active self = true /\ (10 <= h <= 14)%nat
         /\ soc_next = soc_prev + a /\ idx (grid_flow s') h = a - net)
        \/ (0 < net
            /\ soc_next = soc_prev + a /\ idx (grid_flow s') h = - (net - a))
        \/ (net <= 0
            /\ soc_next = soc_prev - a
            /\ idx (grid_flow s') h = Rabs net - a)).
Proof.
  intros Hv Hg Hh. destruct (valid_input_cap _ _ _ _ _ Hv) as (_ & Hb).
  destruct (day_trace self s_mul w_mul d_mul l_mul b_cap Hb)
    as (s' & H & _ & _ & _ & T).
  destruct (T h Hh) as (soc0 & soc1 & flow & E0 & E1 & D & Eg & _).
  change (net_at s_mul w_mul d_mul l_mul h)
    with (solar_at s_mul (Z.of_nat h) + wind_at w_mul (Z.of_nat h) + d_mul
          - load_at l_mul (Z.of_nat h)) in D.
  destruct D as [Hs Hw | _ Hnet | _ Hnet]; rewrite Hg in Eg.
  - do 4 eexists. cbv zeta.
    split; [exact H|]. split; [exact E0|]. split; [exact E1|].
    left. split; [exact Hs|]. split; [exact Hw|].
    split; [reflexivity | exact Eg].
  - do 4 eexists. cbv zeta.
    split; [exact H|]. split; [exact E0|]. split; [exact E1|].
    right; left. split; [exact Hnet|]. split; [reflexivity | exact Eg].
  - do 4 eexists. cbv zeta.
    split; [exact H|]. split; [exact E0|]. split; [exact E1|].
    right; right. split; [exact Hnet|]. split; [reflexivity | exact Eg].
Qed.

Lemma flow_from_battery_amount_witness :
  valid_input 50 20 10 30 100 /\ grid_active fresh = true /\ (12 < 24)%nat /\
  exists s' soc_prev soc_next a,
    let gen := solar_at 50 (Z.of_nat 12) + wind_at 20 (Z.of_nat 12) + 10 in
    let net := gen - load_at 30 (Z.of_nat 12) in
    update_logic fresh 50 20 10 30 100 = Ok s'
    /\ soc_before 12 fresh 50 20 10 30 100 = Ok soc_prev
    /\ soc_after 12 fresh 50 20 10 30 100 = Ok soc_next
    /\ ((scheduler_active fresh = true /\ (10 <= 12 <= 14)%nat
         /\ soc_next = soc_prev + a /\ idx (grid_flow s') 12 = a - net)
        \/ (0 < net
            /\ soc_next = soc_prev + a
            /\ idx (grid_flow s') 12 = - (net - a))
        \/ (net <= 0
            /\ soc_next = soc_prev - a
            /\ idx (grid_flow s') 12 = Rabs net - a)).
Proof.
  assert (Hv : valid_input 50 20 10 30 100)
    by (unfold valid_input; repeat split; lra).
  split; [exact Hv|]. split; [reflexivity|]. split; [lia|].
  apply (flow_from_battery_amount fresh 50 20 10 30 100 12 Hv);
    [reflexivity | lia].
Defined.




(** * Further properties of [update_logic] *)

(** ** The shape functions *)

Lemma exp_nonpos_le_1 (x : R) : x <= 0 -> 0 < exp x <= 1.
Proof.
  intros H. split; [apply exp_pos|].
  rewrite <- exp_0. destruct H as [H|H].
  - left. apply exp_increasing. exact H.
  - rewrite H. right. reflexivity.
Qed.

Lemma exp_monotone (x y : R) : x <= y -> exp x <= exp y.
Proof.
  intros [H|H]; [left; apply exp_increasing; exact H | rewrite H; right; reflexivity].
Qed.

Lemma square_IZR_nonneg (z : Z) : 0 <= IZR (z ^ 2).
Proof. apply IZR_le. apply Z.pow_even_nonneg. exists 1%Z. reflexivity. Qed.

Lemma prepare_profiles (self : Sim) (s_mul w_mul l_mul b_cap : R) (h : nat) :
  (h < 24)%nat ->
  idx (solar (fst (prepare self s_mul w_mul l_mul b_cap))) h
  = solar_at s_mul (Z.of_nat h)
  /\ idx (wind (fst (prepare self s_mul w_mul l_mul b_cap))) h
     = wind_at w_mul (Z.of_nat h)
  /\ idx (load (fst (prepare self s_mul w_mul l_mul b_cap))) h
     = load_at l_mul (Z.of_nat h).
Proof.
  intros Hh.
  change (solar (fst (prepare self s_mul w_mul l_mul b_cap)))
    with (map (solar_at s_mul) (arange 24)).
  change (wind (fst (prepare self s_mul w_mul l_mul b_cap)))
    with (map (wind_at w_mul) (arange 24)).
  change (load (fst (prepare self s_mul w_mul l_mul b_cap)))
    with (map (load_at l_mul) (arange 24)).
  rewrite !idx_map_arange by exact Hh. repeat split.
Qed.

Lemma update_logic_profiles
  (self : Sim) (s_mul w_mul d_mul l_mul b_cap : R) (s' : Sim) :
  update_logic self s_mul w_mul d_mul l_mul b_cap = Ok s' ->
  solar s' = solar (fst (prepare self s_mul w_mul l_mul b_cap))
  /\ wind s' = wind (fst (prepare self s_mul w_mul l_mul b_cap))
  /\ load s' = load (fst (prepare self s_mul w_mul l_mul b_cap))
  /\ hours s' = arange 24.
Proof.
  intros H. apply update_logic_run in H. destruct H as (soc & H).
  destruct (run_hours_shape _ _ _ _ _ _ _ _ _ H)
    as ((_ & Eh & Es & Ew & El) & _).
  rewrite Es, Ew, El, Eh. repeat split.
Qed.

Lemma solar_at_bounds (s_mul : R) (z : Z) :
  0 <= s_mul -> 0 <= solar_at s_mul z <= s_mul.
Proof.
  intros Hs. unfold solar_at.
  assert (He : - IZR ((z - 12) ^ 2) / IZR (2 * 3 ^ 2) <= 0).
  { pose proof (square_IZR_nonneg (z - 12)) as Hq.
    change (IZR (2 * 3 ^ 2)) with 18. lra. }
  destruct (exp_nonpos_le_1 _ He) as (Hp & Hl). split; nra.
Qed.

(** The solar curve of a run is non-negative, never exceeds the
    multiplier, and reaches it exactly at hour 12. *)
Theorem solar_profile_bounds
  (self : Sim) (s_mul w_mul d_mul l_mul b_cap : R) (s' : Sim) (h : nat) :
  update_logic self s_mul w_mul d_mul l_mul b_cap = Ok s' ->
  0 <= s_mul -> (h < 24)%nat ->
  0 <= idx (solar s') h <= s_mul
  /\ idx (solar s') h <= idx (solar s') 12
  /\ idx (solar s') 12 = s_mul.
Proof.
  intros H Hs Hh.
  destruct (update_logic_profiles _ _ _ _ _ _ _ H) as (-> & _).
  destruct (prepare_profiles self s_mul w_mul l_mul b_cap h Hh) as (-> & _).
  destruct (prepare_profiles self s_mul w_mul l_mul b_cap 12) as (-> & _);
    [lia|].
  assert (Hn : solar_at s_mul (Z.of_nat 12) = s_mul).
  { unfold solar_at. change (Z.of_nat 12 - 12)%Z with 0%Z.
    change (IZR (0 ^ 2)) with 0. change (IZR (2 * 3 ^ 2)) with 18.
    replace (- 0 / 18) with 0 by lra. rewrite exp_0. lra. }
  pose proof (solar_at_bounds s_mul (Z.of_nat h) Hs) as Hb.
  rewrite Hn. repeat split; lra.
Qed.

(** The solar curve is symmetric about hour 12 and does not decrease on
    the way up to it. *)
Theorem solar_profile_shape
  (self : Sim) (s_mul w_mul d_mul l_mul b_cap : R) (s' : Sim) :
  update_logic self s_mul w_mul d_mul l_mul b_cap = Ok s' ->
  (forall k, (k <= 11)%nat ->
     idx (solar s') (12 - k) = idx (solar s') (12 + k))
  /\ (0 <= s_mul ->
      forall h1 h2, (h1 <= h2 <= 12)%nat ->
        idx (solar s') h1 <= idx (solar s') h2).
Proof.
  intros H.
  destruct (update_logic_profiles _ _ _ _ _ _ _ H) as (-> & _).
  split.
  - intros k Hk.
    destruct (prepare_profiles self s_mul w_mul l_mul b_cap (12 - k)) as (-> & _);
      [lia|].
    destruct (prepare_profiles self s_mul w_mul l_mul b_cap (12 + k)) as (-> & _);
      [lia|].
    assert (Hz : ((Z.of_nat (12 - k) - 12) ^ 2
                  = (Z.of_nat (12 + k) - 12) ^ 2)%Z).
    { rewrite Nat2Z.inj_sub, Nat2Z.inj_add by lia. ring. }
    unfold solar_at. rewrite Hz. reflexivity.
  - intros Hs h1 h2 Hh.
    destruct (prepare_profiles self s_mul w_mul l_mul b_cap h1) as (-> & _);
      [lia|].
    destruct (prepare_profiles self s_mul w_mul l_mul b_cap h2) as (-> & _);
      [lia|].
    unfold solar_at. apply Rmult_le_compat_l; [exact Hs|].
    apply exp_monotone. change (IZR (2 * 3 ^ 2)) with 18.
    assert (Hz : ((Z.of_nat h2 - 12) ^ 2 <= (Z.of_nat h1 - 12) ^ 2)%Z) by nia.
    apply IZR_le in Hz. lra.
Qed.

(** The load curve never falls below its baseline, the multiplier, and
    never exceeds three times it. *)
Theorem load_profile_bounds
  (self : Sim) (s_mul w_mul d_mul l_mul b_cap : R) (s' : Sim) (h : nat) :
  update_logic self s_mul w_mul d_mul l_mul b_cap = Ok s' ->
  0 <= l_mul -> (h < 24)%nat ->
  l_mul <= idx (load s') h <= 3 * l_mul.
Proof.
  intros H Hl Hh.
  destruct (update_logic_profiles _ _ _ _ _ _ _ H) as (_ & _ & -> & _).
  destruct (prepare_profiles self s_mul w_mul l_mul b_cap h Hh) as (_ & _ & ->).
  unfold load_at.
  assert (H1 : - IZR ((Z.of_nat h - 9) ^ 2) / 2 <= 0).
  { pose proof (square_IZR_nonneg (Z.of_nat h - 9)). lra. }
  assert (H2 : - IZR ((Z.of_nat h - 19) ^ 2) / 4 <= 0).
  { pose proof (square_IZR_nonneg (Z.of_nat h - 19)). lra. }
  destruct (exp_nonpos_le_1 _ H1) as (P1 & L1).
  destruct (exp_nonpos_le_1 _ H2) as (P2 & L2).
  split; nra.
Qed.

Lemma solar_profile_bounds_witness :
  exists s',
    update_logic fresh 50 20 10 30 100 = Ok s' /\ 0 <= 50 /\ (7 < 24)%nat /\
    (0 <= idx (solar s') 7 <= 50
     /\ idx (solar s') 7 <= idx (solar s') 12
     /\ idx (solar s') 12 = 50).
Proof.
  destruct (day_trace fresh 50 20 10 30 100) as (s' & H & _); [lra|].
  exists s'. split; [exact H|]. split; [lra|]. split; [lia|].
  apply (solar_profile_bounds fresh 50 20 10 30 100 s' 7 H); [lra | lia].
Defined.

Lemma solar_profile_shape_witness :
  exists s',
    update_logic fresh 50 20 10 30 100 = Ok s' /\
    ((forall k, (k <= 11)%nat ->
        idx (solar s') (12 - k) = idx (solar s') (12 + k))
     /\ (0 <= 50 ->
         forall h1 h2, (h1 <= h2 <= 12)%nat ->
           idx (solar s') h1 <= idx (solar s') h2)).
Proof.
  destruct (day_trace fresh 50 20 10 30 100) as (s' & H & _); [lra|].
  exists s'. split; [exact H|].
  apply (solar_profile_shape fresh 50 20 10 30 100 s' H).
Defined.

Lemma load_profile_bounds_witness :
  exists s',
    update_logic fresh 50 20 10 30 100 = Ok s' /\ 0 <= 30 /\ (19 < 24)%nat /\
    30 <= idx (load s') 19 <= 3 * 30.
Proof.
  destruct (day_trace fresh 50 20 10 30 100) as (s' & H & _); [lra|].
  exists s'. split; [exact H|]. split; [lra|]. split; [lia|].
  apply (load_profile_bounds fresh 50 20 10 30 100 s' 19 H); [lra | lia].
Defined.

(** ** The dispatch rules *)

Lemma dispatch_flow_sign
  (self : Sim) (b_cap : R) (h : nat) (net soc soc' flow : R) :
  dispatch self b_cap h net soc soc' flow ->
  scheduler_active self = false \/ ~ in_window h ->
  (0 < net -> flow <= 0) /\ (net <= 0 -> 0 <= flow).
Proof.
  intros D Hr. destruct D as [Hsch Hw | _ Hnet | _ Hnet].
  - destruct (reactive_not_scheduled self h Hr Hsch Hw).
  - destruct (min3_cases net (b_cap - soc) 20.0) as (H1 & _);
      destruct (grid_active self); split; intros; lra.
  - destruct (min3_cases (Rabs net) soc 20.0) as (H1 & _);
      destruct (grid_active self); split; intros; lra.
Qed.

(** In a reactive hour the grid flow has the sign of the imbalance the
    battery leaves: for every valid input of magnitude at most 1e300, a
    surplus hour never records an import and a deficit hour never records
    an export. *)
Theorem reactive_flow_sign
  (self : Sim) (s_mul w_mul d_mul l_mul b_cap : R) (h : nat) :
  valid_input s_mul w_mul d_mul l_mul b_cap ->
  no_overflow s_mul w_mul d_mul l_mul b_cap ->
  (h < 24)%nat ->
  scheduler_active self = false \/ ~ (10 <= h <= 14)%nat ->
  exists s',
    let net := net_at s_mul w_mul d_mul l_mul h in
    update_logic self s_mul w_mul d_mul l_mul b_cap = Ok s'
    /\ (0 < net -> idx (grid_flow s') h <= 0)
    /\ (net <= 0 -> 0 <= idx (grid_flow s') h).
Proof.
  intros Hv _ Hh Hr. destruct (valid_input_cap _ _ _ _ _ Hv) as (_ & Hb).
  destruct (day_trace self s_mul w_mul d_mul l_mul b_cap Hb)
    as (s' & H & _ & _ & _ & T).
  destruct (T h Hh) as (soc0 & soc1 & flow & _ & _ & D & Eg & _).
  exists s'. cbv zeta. split; [exact H|]. rewrite Eg.
  exact (dispatch_flow_sign _ _ _ _ _ _ _ D Hr).
Qed.

Lemma reactive_flow_sign_witness :
  valid_input 50 20 10 30 100 /\ no_overflow 50 20 10 30 100 /\
  (3 < 24)%nat /\
  (scheduler_active fresh = false \/ ~ (10 <= 3 <= 14)%nat) /\
  exists s',
    let net := net_at 50 20 10 30 3 in
    update_logic fresh 50 20 10 30 100 = Ok s'
    /\ (0 < net -> idx (grid_flow s') 3 <= 0)
    /\ (net <= 0 -> 0 <= idx (grid_flow s') 3).
Proof.
  assert (Hv : valid_input 50 20 10 30 100)
    by (unfold valid_input; repeat split; lra).
  assert (Hn : no_overflow 50 20 10 30 100)
    by (unfold no_overflow; repeat split; lra).
  split; [exact Hv|]. split; [exact Hn|]. split; [lia|].
  split; [left; reflexivity|].
  apply (reactive_flow_sign fresh 50 20 10 30 100 3 Hv Hn);
    [lia | left; reflexivity].
Defined.

Lemma dispatch_covered
  (self : Sim) (b_cap : R) (h : nat) (net soc soc' flow : R) :
  dispatch self b_cap h net soc soc' flow ->
  scheduler_active self = false \/ ~ in_window h ->
  (0 < net /\ net <= b_cap - soc /\ net <= 20)
  \/ (net <= 0 /\ - net <= soc /\ - net <= 20) ->
  flow = 0 /\ soc' = soc + net.
Proof.
  intros D Hr Hc. destruct D as [Hsch Hw | _ Hnet | _ Hnet].
  - destruct (reactive_not_scheduled self h Hr Hsch Hw).
  - destruct Hc as [(_ & H1 & H2) | (H0 & _)]; [|lra].
    destruct (min3_cases net (b_cap - soc) 20.0) as (B1 & _ & _ & [E|[E|E]]);
      destruct (grid_active self); split; lra.
  - destruct Hc as [(H0 & _) | (_ & H1 & H2)]; [lra|].
    pose proof (Rabs_left1 _ Hnet) as Ha.
    destruct (min3_cases (Rabs net) soc 20.0) as (B1 & _ & _ & [E|[E|E]]);
      destruct (grid_active self); split; lra.
Qed.

(** In a reactive hour whose imbalance fits both the 20 kW cap and the
    battery (headroom for a surplus, stored charge for a deficit), the
    battery takes all of it and the grid flow of the hour is exactly 0. *)
Theorem battery_covers_imbalance
  (self : Sim) (s_mul w_mul d_mul l_mul b_cap : R) (h : nat) (soc0 : R) :
  b_cap <> 0 -> (h < 24)%nat ->
  scheduler_active self = false \/ ~ (10 <= h <= 14)%nat ->
  soc_before h self s_mul w_mul d_mul l_mul b_cap = Ok soc0 ->
  (0 < net_at s_mul w_mul d_mul l_mul h
   /\ net_at s_mul w_mul d_mul l_mul h <= b_cap - soc0
   /\ net_at s_mul w_mul d_mul l_mul h <= 20)
  \/ (net_at s_mul w_mul d_mul l_mul h <= 0
      /\ - net_at s_mul w_mul d_mul l_mul h <= soc0
      /\ - net_at s_mul w_mul d_mul l_mul h <= 20) ->
  exists s',
    update_logic self s_mul w_mul d_mul l_mul b_cap = Ok s'
    /\ idx (grid_flow s') h = 0
    /\ soc_after h self s_mul w_mul d_mul l_mul b_cap
       = Ok (soc0 + net_at s_mul w_mul d_mul l_mul h).
Proof.
  intros Hb Hh Hr E Hc.
  destruct (day_trace self s_mul w_mul d_mul l_mul b_cap Hb)
    as (s' & H & _ & _ & _ & T).
  destruct (T h Hh) as (soc & soc1 & flow & E0 & E1 & D & Eg & _).
  rewrite E in E0. injection E0 as <-.
  destruct (dispatch_covered _ _ _ _ _ _ _ D Hr Hc) as (Hf & Hs).
  exists s'. split; [exact H|]. split; [congruence|].
  rewrite E1, Hs. reflexivity.
Qed.

Lemma battery_covers_imbalance_witness :
  exists s',
    update_logic fresh 0 0 10 0 100 = Ok s'
    /\ idx (grid_flow s') 0 = 0
    /\ soc_after 0 fresh 0 0 10 0 100 = Ok (100 * 0.5 + net_at 0 0 10 0 0).
Proof.
  assert (Hn : net_at 0 0 10 0 0 = 10).
  { unfold net_at, solar_at, wind_at, load_at. ring. }
  apply (battery_covers_imbalance fresh 0 0 10 0 100 0 (100 * 0.5)).
  - lra.
  - lia.
  - left. reflexivity.
  - reflexivity.
  - left. rewrite Hn. lra.
Defined.

Lemma dispatch_soc_fun
  (a b : Sim) (b_cap : R) (h : nat) (net soc s1 f1 s2 f2 : R) :
  scheduler_active a = scheduler_active b ->
  dispatch a b_cap h net soc s1 f1 ->
  dispatch b b_cap h net soc s2 f2 ->
  s1 = s2.
Proof.
  intros Hab Da Db.
  destruct Da as [Ha Hw | Hr Hn | Hr Hn]; destruct Db as [Hb Hw' | Hr' Hn' | Hr' Hn'];
    try reflexivity; try lra;
    try (rewrite Hab in Ha;
         destruct (reactive_not_scheduled _ _ Hr' Ha Hw));
    try (rewrite <- Hab in Hb;
         destruct (reactive_not_scheduled _ _ Hr Hb Hw')).
Qed.

Lemma soc_before_scheduler
  (a b : Sim) (s_mul w_mul d_mul l_mul b_cap : R) (h : nat) :
  b_cap <> 0 -> scheduler_active a = scheduler_active b -> (h <= 24)%nat ->
  soc_before h a s_mul w_mul d_mul l_mul b_cap
  = soc_before h b s_mul w_mul d_mul l_mul b_cap.
Proof.
  intros Hb Hab. induction h as [|h IH]; intros Hh.
  - reflexivity.
  - destruct (day_trace a s_mul w_mul d_mul l_mul b_cap Hb)
      as (sa & _ & _ & _ & _ & Ta).
    destruct (day_trace b s_mul w_mul d_mul l_mul b_cap Hb)
      as (sb & _ & _ & _ & _ & Tb).
    destruct (Ta h) as (a0 & a1 & fa & Ea0 & Ea1 & Da & _); [lia|].
    destruct (Tb h) as (b0 & b1 & fb & Eb0 & Eb1 & Db & _); [lia|].
    rewrite IH, Eb0 in Ea0 by lia. injection Ea0 as <-.
    unfold soc_after in Ea1, Eb1. rewrite Ea1, Eb1. f_equal.
    exact (dispatch_soc_fun a b _ _ _ _ _ _ _ _ Hab Da Db).
Qed.

(** The battery does not see the grid: two runs on the same inputs whose
    objects agree on the scheduler flag record the same 24 percentages,
    whatever their grid flags and tariffs. *)
Theorem battery_ignores_grid
  (a b : Sim) (s_mul w_mul d_mul l_mul b_cap : R) :
  b_cap <> 0 -> scheduler_active a = scheduler_active b ->
  exists sa sb,
    update_logic a s_mul w_mul d_mul l_mul b_cap = Ok sa
    /\ update_logic b s_mul w_mul d_mul l_mul b_cap = Ok sb
    /\ soc_history sa = soc_history sb.
Proof.
  intros Hb Hab.
  destruct (day_trace a s_mul w_mul d_mul l_mul b_cap Hb)
    as (sa & Ha & _ & _ & La & Ta).
  destruct (day_trace b s_mul w_mul d_mul l_mul b_cap Hb)
    as (sb & Hsb & _ & _ & Lb & Tb).
  exists sa, sb. repeat (split; [assumption|]).
  apply (nth_ext _ _ 0 0); [congruence|].
  intros h Hh. rewrite La in Hh.
  destruct (Ta h Hh) as (a0 & a1 & fa & _ & Ea1 & _ & _ & Eha).
  destruct (Tb h Hh) as (b0 & b1 & fb & _ & Eb1 & _ & _ & Ehb).
  change (idx (soc_history sa) h = idx (soc_history sb) h).
  rewrite Eha, Ehb. unfold soc_after in Ea1, Eb1.
  rewrite (soc_before_scheduler a b _ _ _ _ _ (S h) Hb Hab) in Ea1 by lia.
  rewrite Eb1 in Ea1. injection Ea1 as <-. reflexivity.
Qed.

Lemma battery_ignores_grid_witness :
  100 <> 0 /\ scheduler_active fresh = scheduler_active (toggle_grid fresh) /\
  exists sa sb,
    update_logic fresh 50 20 10 30 100 = Ok sa
    /\ update_logic (toggle_grid fresh) 50 20 10 30 100 = Ok sb
    /\ soc_history sa = soc_history sb.
Proof.
  split; [lra|]. split; [reflexivity|].
  apply (battery_ignores_grid fresh (toggle_grid fresh) 50 20 10 30 100);
    [lra | reflexivity].
Defined.

(** A run leaves nothing behind that a later run reads: after a successful
    call, any further call gives what it would have given on the object
    before, and repeating the same call gives the same object again. *)
Theorem update_logic_last_call_wins
  (self : Sim) (s_mul w_mul d_mul l_mul b_cap : R) (s1 : Sim) :
  update_logic self s_mul w_mul d_mul l_mul b_cap = Ok s1 ->
  (forall s_mul' w_mul' d_mul' l_mul' b_cap',
     update_logic s1 s_mul' w_mul' d_mul' l_mul' b_cap'
     = update_logic self s_mul' w_mul' d_mul' l_mul' b_cap')
  /\ update_logic s1 s_mul w_mul d_mul l_mul b_cap = Ok s1.
Proof.
  intros H. destruct (update_logic_cost _ _ _ _ _ _ _ H) as (Hc & _).
  assert (G : forall s_mul' w_mul' d_mul' l_mul' b_cap',
            update_logic s1 s_mul' w_mul' d_mul' l_mul' b_cap'
            = update_logic self s_mul' w_mul' d_mul' l_mul' b_cap').
  { intros. unfold update_logic, run_hours.
    rewrite (prepare_config s1 self _ _ _ _ Hc). reflexivity. }
  split; [exact G|]. rewrite G. exact H.
Qed.

Lemma update_logic_last_call_wins_witness :
  exists s1,
    update_logic fresh 50 20 10 30 100 = Ok s1 /\
    ((forall s_mul' w_mul' d_mul' l_mul' b_cap',
        update_logic s1 s_mul' w_mul' d_mul' l_mul' b_cap'
        = update_logic fresh s_mul' w_mul' d_mul' l_mul' b_cap')
     /\ update_logic s1 50 20 10 30 100 = Ok s1).
Proof.
  destruct (day_trace fresh 50 20 10 30 100) as (s1 & H & _); [lra|].
  exists s1. split; [exact H|].
  apply (update_logic_last_call_wins fresh 50 20 10 30 100 s1 H).
Defined.

Lemma Rmin_plus_step (x b c : R) :
  0 <= c -> Rmin (x + c) b + Rmin 25.0 (b - Rmin (x + c) b)
            = Rmin (x + (c + 25)) b.
Proof.
  intros Hc.
  destruct (Rmin_cases (x + c) b) as (A1 & A2 & [A|A]);
    destruct (Rmin_cases 25.0 (b - Rmin (x + c) b)) as (B1 & B2 & [B|B]);
    destruct (Rmin_cases (x + (c + 25)) b) as (C1 & C2 & [C|C]); lra.
Qed.

Lemma scheduled_hours_accumulate
  (self : Sim) (s_mul w_mul d_mul l_mul b_cap : R) (soc10 : R) :
  b_cap <> 0 -> scheduler_active self = true ->
  soc_before 10 self s_mul w_mul d_mul l_mul b_cap = Ok soc10 ->
  forall n, (n <= 5)%nat ->
    soc_before (10 + n) self s_mul w_mul d_mul l_mul b_cap
    = Ok (if Nat.eqb n 0 then soc10 else Rmin (soc10 + 25 * INR n) b_cap).
Proof.
  intros Hb Hs E10.
  destruct (day_trace self s_mul w_mul d_mul l_mul b_cap Hb)
    as (s' & _ & _ & _ & _ & T).
  induction n as [|n IH]; intros Hn.
  - rewrite Nat.add_0_r. exact E10.
  - specialize (IH ltac:(lia)).
    destruct (T (10 + n)%nat) as (soc0 & soc1 & flow & E0 & E1 & D & _); [lia|].
    rewrite IH in E0. injection E0 as <-.
    replace (10 + S n)%nat with (S (10 + n)) by lia.
    unfold soc_after in E1. rewrite E1. f_equal.
    destruct D as [_ _ | Hr _ | Hr _].
    2,3: destruct (reactive_not_scheduled self (10 + n) Hr Hs);
         unfold in_window; lia.
    rewrite S_INR. destruct n as [|n]; simpl Nat.eqb; cbv iota.
    + simpl INR.
      destruct (Rmin_cases 25.0 (b_cap - soc10)) as (B1 & B2 & [B|B]);
        destruct (Rmin_cases (soc10 + 25 * (0 + 1)) b_cap) as (C1 & C2 & [C|C]);
        lra.
    + pose proof (pos_INR (S n)) as Hp.
      rewrite (Rmin_plus_step soc10 b_cap (25 * INR (S n))) by lra.
      f_equal. lra.
Qed.

(** With the scheduler active and a capacity of at most 125 kWh, the five
    forced hours fill the battery: for every valid input of magnitude at
    most 1e300 the percentage recorded for hour 14 is exactly 100. *)
Theorem scheduled_window_charge
  (self : Sim) (s_mul w_mul d_mul l_mul b_cap : R) :
  valid_input s_mul w_mul d_mul l_mul b_cap ->
  no_overflow s_mul w_mul d_mul l_mul b_cap ->
  scheduler_active self = true ->
  b_cap <= 125 ->
  exists s',
    update_logic self s_mul w_mul d_mul l_mul b_cap = Ok s'
    /\ length (soc_history s') = 24%nat
    /\ idx (soc_history s') 14 = 100.
Proof.
  intros Hv _ Hs Hle. destruct (valid_input_cap _ _ _ _ _ Hv) as (Hp & Hb).
  destruct (day_trace self s_mul w_mul d_mul l_mul b_cap Hb)
    as (s' & H & _ & _ & Lh & T).
  destruct (soc_before_nonneg self s_mul w_mul d_mul l_mul b_cap 10 Hp)
    as (soc10 & E10 & Hr); [lia|].
  destruct (T 14%nat) as (_ & soc14 & _ & _ & E14 & _ & _ & Eh); [lia|].
  pose proof (scheduled_hours_accumulate self s_mul w_mul d_mul l_mul b_cap
                soc10 Hb Hs E10 5 (le_n _)) as E15.
  change (soc_before (10 + 5) self s_mul w_mul d_mul l_mul b_cap)
    with (soc_after 14 self s_mul w_mul d_mul l_mul b_cap) in E15.
  rewrite E14 in E15. injection E15 as E15.
  exists s'. repeat (split; [assumption|]).
  assert (Hfull : soc14 = b_cap).
  { rewrite E15.
    match goal with
    | |- Rmin ?x ?y = _ => destruct (Rmin_cases x y) as (_ & C2 & [C|C]); lra
    end. }
  rewrite Eh, Hfull. field. exact Hb.
Qed.

Lemma scheduled_window_charge_witness :
  valid_input 50 20 10 30 100 /\ no_overflow 50 20 10 30 100 /\
  scheduler_active (toggle_scheduler fresh) = true /\ 100 <= 125 /\
  exists s',
    update_logic (toggle_scheduler fresh) 50 20 10 30 100 = Ok s'
    /\ length (soc_history s') = 24%nat
    /\ idx (soc_history s') 14 = 100.
Proof.
  assert (Hv : valid_input 50 20 10 30 100)
    by (unfold valid_input; repeat split; lra).
  assert (Hn : no_overflow 50 20 10 30 100)
    by (unfold no_overflow; repeat split; lra).
  split; [exact Hv|]. split; [exact Hn|]. split; [reflexivity|].
  split; [lra|].
  apply (scheduled_window_charge (toggle_scheduler fresh) 50 20 10 30 100
           Hv Hn); [reflexivity | lra].
Defined.

(** * The controls *)

Lemma update_logic_same_config
  (a b : Sim) (s_mul w_mul d_mul l_mul b_cap : R) :
  same_config a b ->
  update_logic a s_mul w_mul d_mul l_mul b_cap
  = update_logic b s_mul w_mul d_mul l_mul b_cap.
Proof.
  intros Hc. unfold update_logic, run_hours.
  rewrite (prepare_config a b _ _ _ _ Hc). reflexivity.
Qed.

Lemma update_logic_lengths
  (self : Sim) (s_mul w_mul d_mul l_mul b_cap : R) (s : Sim) :
  update_logic self s_mul w_mul d_mul l_mul b_cap = Ok s ->
  length (grid_flow s) = 24%nat /\ length (soc_history s) = 24%nat.
Proof.
  intros H. apply update_logic_run in H. destruct H as (soc & H).
  apply (run_hours_shape _ _ _ _ _ _ _ _ _ H).
Qed.

Lemma set_heights_full (bars flows : list R) :
  length bars = length flows -> Gui.set_heights bars flows = flows.
Proof.
  revert flows. induction bars as [|b bars IH]; intros [|f flows] H;
    try discriminate H; simpl.
  - reflexivity.
  - f_equal. apply IH. injection H as H. exact H.
Qed.

Lemma in_range_put (k : Gui.slider) (x : R) (v : Gui.Sliders) :
  in_range v -> Gui.valmin k <= x <= Gui.valmax k -> in_range (Gui.put k x v).
Proof.
  intros Hv Hx j. pose proof (Hv j) as Hj.
  destruct k, j; simpl in *; assumption.
Qed.

Lemma put_val (k : Gui.slider) (v : Gui.Sliders) : Gui.put k (Gui.val k v) v = v.
Proof. destruct v, k; reflexivity. Qed.

Lemma in_range_battery (v : Gui.Sliders) : in_range v -> Gui.bat_val v <> 0.
Proof. intros H. pose proof (H Gui.sld_bat) as Hb. simpl in Hb. lra. Qed.

Lemma clip_in_range (k : Gui.slider) (x : R) :
  Gui.valmin k <= Gui.clip k x <= Gui.valmax k.
Proof.
  unfold Gui.clip.
  destruct (Rle_dec x (Gui.valmin k)); [destruct k; simpl; lra|].
  destruct (Rle_dec (Gui.valmax k) x); [destruct k; simpl; lra|].
  lra.
Qed.

Lemma valinit_in_range (k : Gui.slider) :
  Gui.valmin k <= Gui.valinit k <= Gui.valmax k.
Proof.
  destruct k; simpl;
    unfold init_solar, init_wind, init_diesel, init_load, init_batt; lra.
Qed.

Lemma in_sync_ready (a : Gui.App) : in_sync a -> ready a.
Proof.
  intros (Hr & Hu & Hb & Hs & Hp & _ & Hl).
  repeat (split; [assumption|]). split; [|exact Hl].
  rewrite Hp. simpl. apply (update_logic_lengths _ _ _ _ _ _ _ Hu).
Qed.

Lemma update_plot_result (a : Gui.App) :
  ready a ->
  exists s,
    update_logic (Gui.sim a)
      (Gui.sol_val (Gui.sliders a)) (Gui.wnd_val (Gui.sliders a))
      (Gui.dsl_val (Gui.sliders a)) (Gui.lod_val (Gui.sliders a))
      (Gui.bat_val (Gui.sliders a)) = Ok s
    /\ Gui.update_plot a
       = Ok (Gui.mkApp s (Gui.show_cost_data a) (plots_of s)
               (banner_of (Gui.show_cost_data a) s)
               (Gui.btn_sched a) (Gui.sliders a)).
Proof.
  intros (Hr & _ & _ & Hlen & _).
  destruct (day_trace (Gui.sim a)
              (Gui.sol_val (Gui.sliders a)) (Gui.wnd_val (Gui.sliders a))
              (Gui.dsl_val (Gui.sliders a)) (Gui.lod_val (Gui.sliders a))
              (Gui.bat_val (Gui.sliders a)) (in_range_battery _ Hr))
    as (s & H & _ & Lg & _).
  exists s. split; [exact H|].
  unfold Gui.update_plot. rewrite H. simpl.
  rewrite set_heights_full by congruence.
  destruct a as [sm show pl txt lbl sl].
  unfold Gui.refresh_display, banner_of, plots_of; simpl.
  destruct show; reflexivity.
Qed.

Lemma update_plot_sync (a : Gui.App) :
  ready a ->
  exists a',
    Gui.update_plot a = Ok a'
    /\ in_sync a'
    /\ Gui.sliders a' = Gui.sliders a
    /\ Gui.show_cost_data a' = Gui.show_cost_data a
    /\ same_config (Gui.sim a') (Gui.sim a).
Proof.
  intros Hready. destruct (update_plot_result a Hready) as (s & H & E).
  destruct Hready as (Hr & Hb & Hs & _ & Hl).
  destruct (update_logic_cost _ _ _ _ _ _ _ H) as (Hc & _).
  pose proof Hc as (Cg & Csch & Cb & Cs).
  eexists. split; [exact E|].
  split; [|simpl; repeat split; assumption].
  unfold in_sync, up_to_date; simpl.
  split; [exact Hr|].
  split; [rewrite (update_logic_same_config s (Gui.sim a) _ _ _ _ _ Hc); exact H|].
  split; [congruence|]. split; [congruence|].
  split; [reflexivity|]. split; [reflexivity|].
  rewrite Hl. unfold label_of. rewrite Csch. reflexivity.
Qed.

Lemma same_config_refl (s : Sim) : same_config s s.
Proof. repeat split. Qed.

Lemma same_config_trans (a b c : Sim) :
  same_config a b -> same_config b c -> same_config a c.
Proof.
  intros (A1 & A2 & A3 & A4) (B1 & B2 & B3 & B4).
  repeat split; congruence.
Qed.

(** A state in sync is determined by its sliders, its flags and the cost
    switch. *)
Lemma in_sync_determined (a b : Gui.App) :
  in_sync a -> in_sync b ->
  Gui.sliders a = Gui.sliders b ->
  Gui.show_cost_data a = Gui.show_cost_data b ->
  grid_active (Gui.sim a) = grid_active (Gui.sim b) ->
  scheduler_active (Gui.sim a) = scheduler_active (Gui.sim b) ->
  a = b.
Proof.
  intros (_ & Ua & Ba & Sa & Pa & Ta & La) (_ & Ub & Bb & Sb & Pb & Tb & Lb)
         Hv Hshow Hg Hsch.
  assert (Hc : same_config (Gui.sim a) (Gui.sim b))
    by (repeat split; congruence).
  assert (Hs : Gui.sim a = Gui.sim b).
  { unfold up_to_date in Ua, Ub. rewrite Hv in Ua.
    rewrite (update_logic_same_config _ _ _ _ _ _ _ Hc), Ub in Ua.
    injection Ua as Ua. symmetry. exact Ua. }
  destruct a as [sa sha pa ta la va], b as [sb shb pb tb lb vb].
  simpl in *. subst. reflexivity.
Qed.

Lemma set_val_sync (k : Gui.slider) (x : R) (a : Gui.App) :
  in_sync a -> Gui.valmin k <= x <= Gui.valmax k ->
  exists a',
    Gui.set_val k x a = Ok a'
    /\ in_sync a'
    /\ Gui.sliders a' = Gui.put k x (Gui.sliders a)
    /\ Gui.show_cost_data a' = Gui.show_cost_data a
    /\ same_config (Gui.sim a') (Gui.sim a).
Proof.
  intros Ha Hx. destruct (in_sync_ready a Ha) as (Hr & Hb & Hs & Hlen & Hl).
  unfold Gui.set_val.
  apply (update_plot_sync (Gui.set_sliders (Gui.put k x (Gui.sliders a)) a)).
  split; [apply in_range_put; assumption|].
  repeat split; assumption.
Qed.

Lemma reset_sync (k : Gui.slider) (a : Gui.App) :
  in_sync a ->
  exists a',
    Gui.reset k a = Ok a'
    /\ in_sync a'
    /\ Gui.sliders a' = Gui.put k (Gui.valinit k) (Gui.sliders a)
    /\ Gui.show_cost_data a' = Gui.show_cost_data a
    /\ same_config (Gui.sim a') (Gui.sim a).
Proof.
  intros Ha. unfold Gui.reset.
  destruct (Req_dec_T (Gui.val k (Gui.sliders a)) (Gui.valinit k)) as [E|_].
  - exists a. rewrite <- E, put_val.
    repeat (split; [reflexivity || assumption|]). apply same_config_refl.
  - apply set_val_sync; [exact Ha | apply valinit_in_range].
Qed.

Lemma drag_sync (k : Gui.slider) (x : R) (a : Gui.App) :
  in_sync a ->
  exists a',
    Gui.drag k x a = Ok a'
    /\ in_sync a'
    /\ Gui.sliders a' = Gui.put k (Gui.clip k x) (Gui.sliders a)
    /\ Gui.show_cost_data a' = Gui.show_cost_data a
    /\ same_config (Gui.sim a') (Gui.sim a).
Proof.
  intros Ha. unfold Gui.drag.
  destruct (Req_dec_T (Gui.clip k x) (Gui.val k (Gui.sliders a))) as [E|_].
  - exists a. rewrite E, put_val.
    repeat (split; [reflexivity || assumption|]). apply same_config_refl.
  - apply set_val_sync; [exact Ha | apply clip_in_range].
Qed.

Lemma toggle_grid_sync (a : Gui.App) :
  in_sync a ->
  exists a',
    Gui.toggle_grid a = Ok a'
    /\ in_sync a'
    /\ Gui.sliders a' = Gui.sliders a
    /\ Gui.show_cost_data a' = Gui.show_cost_data a
    /\ grid_active (Gui.sim a') = negb (grid_active (Gui.sim a))
    /\ scheduler_active (Gui.sim a') = scheduler_active (Gui.sim a).
Proof.
  intros Ha. destruct (in_sync_ready a Ha) as (Hr & Hb & Hs & Hlen & Hl).
  unfold Gui.toggle_grid.
  destruct (update_plot_sync
              (Gui.set_sim (set_grid_active (negb (grid_active (Gui.sim a)))
                                            (Gui.sim a)) a))
    as (a' & E & Hs' & Hv & Hsh & (Cg & Csch & _)).
  { repeat split; try assumption; apply Hr. }
  simpl in Hv, Hsh, Cg, Csch.
  exists a'. repeat (split; [assumption|]). assumption.
Qed.

Lemma toggle_scheduler_sync (a : Gui.App) :
  in_sync a ->
  exists a',
    Gui.toggle_scheduler a = Ok a'
    /\ in_sync a'
    /\ Gui.sliders a' = Gui.sliders a
    /\ Gui.show_cost_data a' = Gui.show_cost_data a
    /\ grid_active (Gui.sim a') = grid_active (Gui.sim a)
    /\ scheduler_active (Gui.sim a') = negb (scheduler_active (Gui.sim a)).
Proof.
  intros Ha. destruct (in_sync_ready a Ha) as (Hr & Hb & Hs & Hlen & Hl).
  unfold Gui.toggle_scheduler.
  match goal with
  | |- exists a', Gui.update_plot ?x = _ /\ _ =>
      destruct (update_plot_sync x)
        as (a' & E & Hs' & Hv & Hsh & (Cg & Csch & _))
  end.
  { repeat split; try assumption; apply Hr. }
  simpl in Hv, Hsh, Cg, Csch.
  exists a'. repeat (split; [assumption|]). assumption.
Qed.

Lemma toggle_cost_visibility_sync (a : Gui.App) :
  in_sync a ->
  exists a',
    Gui.toggle_cost_visibility a = Ok a'
    /\ in_sync a'
    /\ Gui.sliders a' = Gui.sliders a
    /\ Gui.show_cost_data a' = negb (Gui.show_cost_data a)
    /\ Gui.sim a' = Gui.sim a.
Proof.
  intros (Hr & Hu & Hb & Hs & Hp & Ht & Hl).
  unfold Gui.toggle_cost_visibility. eexists. split; [reflexivity|].
  destruct a as [sm show pl txt lbl sl]. simpl in *.
  unfold Gui.refresh_display, in_sync, up_to_date, banner_of in *.
  destruct show; simpl in *; repeat split; assumption || apply Hr.
Qed.

Lemma bind_Ok {A B : Type} (a : A) (k : A -> result B) : bind (Ok a) k = k a.
Proof. reflexivity. Qed.

(** The two presets: three [set_val] calls, then [update_plot]. *)
Lemma preset_sync (x y z : R) (a : Gui.App) :
  in_sync a ->
  Gui.valmin Gui.sld_sol <= x <= Gui.valmax Gui.sld_sol ->
  Gui.valmin Gui.sld_wnd <= y <= Gui.valmax Gui.sld_wnd ->
  Gui.valmin Gui.sld_dsl <= z <= Gui.valmax Gui.sld_dsl ->
  exists a',
    (self <- Gui.set_val Gui.sld_sol x a ;;
     self <- Gui.set_val Gui.sld_wnd y self ;;
     self <- Gui.set_val Gui.sld_dsl z self ;;
     Gui.update_plot self) = Ok a'
    /\ in_sync a'
    /\ Gui.sliders a'
       = Gui.mkSliders x y z (Gui.lod_val (Gui.sliders a))
                       (Gui.bat_val (Gui.sliders a))
    /\ Gui.show_cost_data a' = Gui.show_cost_data a
    /\ same_config (Gui.sim a') (Gui.sim a).
Proof.
  intros Ha Hx Hy Hz.
  destruct (set_val_sync Gui.sld_sol x a Ha Hx) as (a1 & E1 & S1 & V1 & W1 & C1).
  destruct (set_val_sync Gui.sld_wnd y a1 S1 Hy) as (a2 & E2 & S2 & V2 & W2 & C2).
  destruct (set_val_sync Gui.sld_dsl z a2 S2 Hz) as (a3 & E3 & S3 & V3 & W3 & C3).
  destruct (update_plot_sync a3 (in_sync_ready a3 S3))
    as (a4 & E4 & S4 & V4 & W4 & C4).
  exists a4. rewrite E1, bind_Ok, E2, bind_Ok, E3, bind_Ok.
  split; [exact E4|]. split; [exact S4|].
  split; [rewrite V4, V3, V2, V1; reflexivity|].
  split; [congruence|].
  eauto using same_config_trans.
Qed.

Lemma set_storm_sync (a : Gui.App) :
  in_sync a ->
  exists a',
    Gui.set_storm a = Ok a'
    /\ in_sync a'
    /\ Gui.sliders a'
       = Gui.mkSliders 0.0 100.0 30.0 (Gui.lod_val (Gui.sliders a))
                       (Gui.bat_val (Gui.sliders a))
    /\ Gui.show_cost_data a' = Gui.show_cost_data a
    /\ same_config (Gui.sim a') (Gui.sim a).
Proof.
  intros Ha. apply (preset_sync 0.0 100.0 30.0 a Ha); simpl; lra.
Qed.

Lemma set_clear_sync (a : Gui.App) :
  in_sync a ->
  exists a',
    Gui.set_clear a = Ok a'
    /\ in_sync a'
    /\ Gui.sliders a'
       = Gui.mkSliders 50.0 20.0 10.0 (Gui.lod_val (Gui.sliders a))
                       (Gui.bat_val (Gui.sliders a))
    /\ Gui.show_cost_data a' = Gui.show_cost_data a
    /\ same_config (Gui.sim a') (Gui.sim a).
Proof.
  intros Ha. apply (preset_sync 50.0 20.0 10.0 a Ha); simpl; lra.
Qed.

Lemma reset_defaults_sync (a : Gui.App) :
  in_sync a ->
  exists a',
    Gui.reset_defaults a = Ok a'
    /\ in_sync a'
    /\ Gui.sliders a'
       = Gui.mkSliders init_solar init_wind init_diesel init_load init_batt
    /\ Gui.show_cost_data a' = Gui.show_cost_data a
    /\ grid_active (Gui.sim a') = true
    /\ scheduler_active (Gui.sim a') = false.
Proof.
  intros Ha. unfold Gui.reset_defaults.
  destruct (reset_sync Gui.sld_sol a Ha) as (a1 & E1 & S1 & V1 & W1 & _).
  destruct (reset_sync Gui.sld_wnd a1 S1) as (a2 & E2 & S2 & V2 & W2 & _).
  destruct (reset_sync Gui.sld_dsl a2 S2) as (a3 & E3 & S3 & V3 & W3 & _).
  destruct (reset_sync Gui.sld_lod a3 S3) as (a4 & E4 & S4 & V4 & W4 & _).
  destruct (reset_sync Gui.sld_bat a4 S4) as (a5 & E5 & S5 & V5 & W5 & _).
  rewrite E1, bind_Ok, E2, bind_Ok, E3, bind_Ok, E4, bind_Ok, E5, bind_Ok.
  destruct (in_sync_ready a5 S5) as (Hr & Hb & Hs & Hlen & Hl).
  match goal with
  | |- exists a', Gui.update_plot ?x = _ /\ _ =>
      destruct (update_plot_sync x)
        as (a' & E & S' & V' & W' & (Cg & Csch & _))
  end.
  { repeat split; try assumption; apply Hr. }
  simpl in V', W', Cg, Csch.
  exists a'. split; [exact E|]. split; [exact S'|].
  split; [rewrite V', V5, V4, V3, V2, V1; reflexivity|].
  split; [congruence|]. split; assumption.
Qed.

Lemma new_app_sync :
  exists a0,
    Gui.new_app = Ok a0
    /\ in_sync a0
    /\ Gui.sliders a0
       = Gui.mkSliders init_solar init_wind init_diesel init_load init_batt
    /\ Gui.show_cost_data a0 = false
    /\ grid_active (Gui.sim a0) = true
    /\ scheduler_active (Gui.sim a0) = false.
Proof.
  destruct (day_trace fresh init_solar init_wind init_diesel init_load init_batt)
    as (s & H & _); [unfold init_batt; lra|].
  destruct (update_logic_cost _ _ _ _ _ _ _ H) as (Hc & _).
  pose proof Hc as (Cg & Csch & Cb & Cs). simpl in Cg, Csch, Cb, Cs.
  unfold Gui.new_app. rewrite H, bind_Ok.
  eexists. split; [reflexivity|].
  unfold Gui.refresh_display; simpl.
  split; [|repeat split; assumption].
  unfold in_sync, up_to_date, banner_of, label_of; simpl.
  split; [intros k; destruct k; apply valinit_in_range|].
  split; [rewrite (update_logic_same_config s fresh _ _ _ _ _ Hc); exact H|].
  rewrite Csch. repeat split; assumption.
Qed.

Lemma handle_sync (e : Gui.event) (a : Gui.App) :
  in_sync a -> exists a', Gui.handle e a = Ok a' /\ in_sync a'.
Proof.
  intros Ha. destruct e as [k x | | | | | |]; simpl.
  - destruct (drag_sync k x a Ha) as (a' & E & S & _). eauto.
  - destruct (set_storm_sync a Ha) as (a' & E & S & _). eauto.
  - destruct (set_clear_sync a Ha) as (a' & E & S & _). eauto.
  - destruct (toggle_grid_sync a Ha) as (a' & E & S & _). eauto.
  - destruct (toggle_scheduler_sync a Ha) as (a' & E & S & _). eauto.
  - destruct (reset_defaults_sync a Ha) as (a' & E & S & _). eauto.
  - destruct (toggle_cost_visibility_sync a Ha) as (a' & E & S & _). eauto.
Qed.

Lemma session_snoc (es : list Gui.event) (e : Gui.event) :
  Gui.session (es ++ [e]) = bind (Gui.session es) (Gui.handle e).
Proof. unfold Gui.session. rewrite fold_left_app. reflexivity. Qed.

Lemma session_sync (es : list Gui.event) :
  exists a, Gui.session es = Ok a /\ in_sync a.
Proof.
  induction es as [|e es IH] using rev_ind.
  - destruct new_app_sync as (a0 & E & S & _). exists a0. split; assumption.
  - destruct IH as (a & E & S).
    destruct (handle_sync e a S) as (a' & E' & S').
    exists a'. rewrite session_snoc, E, bind_Ok. split; assumption.
Qed.

Lemma grid_off_flows
  (self : Sim) (s_mul w_mul d_mul l_mul b_cap : R) (s' : Sim) :
  b_cap <> 0 -> grid_active self = false ->
  update_logic self s_mul w_mul d_mul l_mul b_cap = Ok s' ->
  (forall h, (h < 24)%nat -> idx (grid_flow s') h = 0) /\ total_cost s' = 0.
Proof.
  intros Hb Hg H.
  destruct (day_trace self s_mul w_mul d_mul l_mul b_cap Hb)
    as (s & H' & _ & Lg & _ & T).
  rewrite H in H'. injection H' as <-.
  assert (Hz : forall h, (h < 24)%nat -> idx (grid_flow s') h = 0).
  { intros h Hh. destruct (T h Hh) as (soc0 & soc1 & flow & _ & _ & D & E & _).
    rewrite E. destruct D; rewrite Hg; reflexivity. }
  split; [exact Hz|].
  destruct (update_logic_cost _ _ _ _ _ _ _ H) as (_ & ->).
  apply tariff_sum_zero. apply Forall_nth. intros i d Hi.
  rewrite (nth_indep _ d 0 Hi). apply Hz. lia.
Qed.

(** No sequence of slider drags and button clicks makes a callback raise:
    every session ends in a state, and in that state each slider is inside
    its range, the battery capacity in particular between 20 and 500, so
    [update_logic] never divides by zero. *)
Theorem session_never_raises (es : list Gui.event) :
  exists a,
    Gui.session es = Ok a
    /\ (forall k, Gui.valmin k <= Gui.val k (Gui.sliders a) <= Gui.valmax k)
    /\ 20 <= Gui.bat_val (Gui.sliders a) <= 500
    /\ forall e, exists a', Gui.handle e a = Ok a'.
Proof.
  destruct (session_sync es) as (a & E & S).
  exists a. split; [exact E|].
  pose proof S as (Hr & _). split; [exact Hr|].
  split; [exact (Hr Gui.sld_bat)|].
  intros e. destruct (handle_sync e a S) as (a' & E' & _). eauto.
Qed.

(** After any session the display is current: the simulation outputs on
    the object are those of the present slider values and flags, the three
    curves and the 24 bars show these outputs, the banner shows the present
    grid status (and cost, when switched on) and the scheduler button
    shows the present scheduler flag. *)
Theorem display_in_sync (es : list Gui.event) :
  exists a,
    let v := Gui.sliders a in
    Gui.session es = Ok a
    /\ update_logic (Gui.sim a) (Gui.sol_val v) (Gui.wnd_val v) (Gui.dsl_val v)
                    (Gui.lod_val v) (Gui.bat_val v) = Ok (Gui.sim a)
    /\ Gui.l_sol (Gui.plots a) = solar (Gui.sim a)
    /\ Gui.l_load (Gui.plots a) = load (Gui.sim a)
    /\ Gui.bar_grid (Gui.plots a) = grid_flow (Gui.sim a)
    /\ Gui.l_soc (Gui.plots a) = soc_history (Gui.sim a)
    /\ Gui.f_soc (Gui.plots a) = soc_history (Gui.sim a)
    /\ Gui.cost_text a
       = (let status := if grid_active (Gui.sim a)
                        then "GRID CONNECTED"%string
                        else "ISLANDED MODE"%string in
          if Gui.show_cost_data a
          then Gui.DailyCost (total_cost (Gui.sim a)) status
          else Gui.SystemStatus status)
    /\ Gui.btn_sched a
       = (if scheduler_active (Gui.sim a)
          then "🤖 Smart DES: ON"%string else "🤖 Smart DES: OFF"%string).
Proof.
  destruct (session_sync es) as (a & E & S).
  exists a. cbv zeta. split; [exact E|].
  destruct S as (_ & Hu & _ & _ & Hp & Ht & Hl).
  split; [exact Hu|]. rewrite Hp, Ht, Hl. repeat split.
Qed.

(** After any session the cost on the object is the tariff sum, at 0.15
    and 0.08, of the 24 bars on display. *)
Theorem displayed_cost_is_tariff_sum (es : list Gui.event) :
  exists a,
    Gui.session es = Ok a
    /\ length (Gui.bar_grid (Gui.plots a)) = 24%nat
    /\ total_cost (Gui.sim a) = cost_sum (Gui.bar_grid (Gui.plots a)).
Proof.
  destruct (session_sync es) as (a & E & S).
  exists a. split; [exact E|].
  destruct S as (_ & Hu & Hb & Hs & Hp & _).
  rewrite Hp. simpl.
  split; [apply (update_logic_lengths _ _ _ _ _ _ _ Hu)|].
  destruct (update_logic_cost _ _ _ _ _ _ _ Hu) as (_ & Hc).
  rewrite Hc, Hb, Hs. apply tariff_sum_cost_sum.
Qed.

(** After any session that leaves the grid switched off, the banner reads
    ISLANDED MODE, each of the 24 bars is at 0 and the cost is 0. *)
Theorem islanded_display (es : list Gui.event) (a : Gui.App) :
  Gui.session es = Ok a ->
  grid_active (Gui.sim a) = false ->
  Gui.cost_text a
  = (if Gui.show_cost_data a
     then Gui.DailyCost (total_cost (Gui.sim a)) "ISLANDED MODE"%string
     else Gui.SystemStatus "ISLANDED MODE"%string)
  /\ (forall h, (h < 24)%nat -> idx (Gui.bar_grid (Gui.plots a)) h = 0)
  /\ total_cost (Gui.sim a) = 0.
Proof.
  intros E Hg. destruct (session_sync es) as (a' & E' & S).
  rewrite E in E'. injection E' as <-.
  destruct S as (Hr & Hu & _ & _ & Hp & Ht & _).
  destruct (grid_off_flows _ _ _ _ _ _ _ (in_range_battery _ Hr) Hg Hu)
    as (Hz & Hc).
  split; [|split; [rewrite Hp; exact Hz | exact Hc]].
  rewrite Ht. unfold banner_of. rewrite Hg. reflexivity.
Qed.

Lemma islanded_display_witness :
  exists a,
    Gui.session [Gui.ClickGridToggle] = Ok a
    /\ grid_active (Gui.sim a) = false
    /\ (Gui.cost_text a
        = (if Gui.show_cost_data a
           then Gui.DailyCost (total_cost (Gui.sim a)) "ISLANDED MODE"%string
           else Gui.SystemStatus "ISLANDED MODE"%string)
        /\ (forall h, (h < 24)%nat -> idx (Gui.bar_grid (Gui.plots a)) h = 0)
        /\ total_cost (Gui.sim a) = 0).
Proof.
  destruct new_app_sync as (a0 & E0 & S0 & _ & _ & G0 & _).
  destruct (toggle_grid_sync a0 S0) as (a & E & _ & _ & _ & G & _).
  assert (Es : Gui.session [Gui.ClickGridToggle] = Ok a).
  { unfold Gui.session; simpl. rewrite E0, bind_Ok. exact E. }
  assert (Hg : grid_active (Gui.sim a) = false) by (rewrite G, G0; reflexivity).
  exists a. split; [exact Es|]. split; [exact Hg|].
  apply (islanded_display [Gui.ClickGridToggle] a Es Hg).
Defined.

(** The three switches undo themselves: after any session, clicking Grid
    Toggle twice, Smart DES twice or Show/Hide Cost twice gives back
    exactly the state before the two clicks. *)
Theorem toggles_are_involutions (es : list Gui.event) :
  exists a,
    Gui.session es = Ok a
    /\ (exists a1, Gui.toggle_grid a = Ok a1 /\ Gui.toggle_grid a1 = Ok a)
    /\ (exists a1,
          Gui.toggle_scheduler a = Ok a1 /\ Gui.toggle_scheduler a1 = Ok a)
    /\ (exists a1,
          Gui.toggle_cost_visibility a = Ok a1
          /\ Gui.toggle_cost_visibility a1 = Ok a).
Proof.
  destruct (session_sync es) as (a & E & S).
  exists a. split; [exact E|]. split; [|split].
  - destruct (toggle_grid_sync a S) as (a1 & E1 & S1 & V1 & W1 & G1 & C1).
    destruct (toggle_grid_sync a1 S1) as (a2 & E2 & S2 & V2 & W2 & G2 & C2).
    exists a1. split; [exact E1|]. rewrite E2. f_equal.
    apply in_sync_determined; try assumption; try congruence.
    rewrite G2, G1. apply negb_involutive.
  - destruct (toggle_scheduler_sync a S) as (a1 & E1 & S1 & V1 & W1 & G1 & C1).
    destruct (toggle_scheduler_sync a1 S1) as (a2 & E2 & S2 & V2 & W2 & G2 & C2).
    exists a1. split; [exact E1|]. rewrite E2. f_equal.
    apply in_sync_determined; try assumption; try congruence.
    rewrite C2, C1. apply negb_involutive.
  - destruct (toggle_cost_visibility_sync a S) as (a1 & E1 & S1 & V1 & W1 & M1).
    destruct (toggle_cost_visibility_sync a1 S1) as (a2 & E2 & S2 & V2 & W2 & M2).
    exists a1. split; [exact E1|]. rewrite E2. f_equal.
    apply in_sync_determined; try assumption; try congruence.
    rewrite W2, W1. apply negb_involutive.
Qed.

(** Reset System brings any session back to the state right after
    start-up, the cost switch apart, which it leaves as it is. *)
Theorem reset_restores_startup (es : list Gui.event) :
  exists a a0,
    Gui.session es = Ok a
    /\ Gui.new_app = Ok a0
    /\ Gui.reset_defaults a
       = if Gui.show_cost_data a then Gui.toggle_cost_visibility a0 else Ok a0.
Proof.
  destruct (session_sync es) as (a & E & S).
  destruct new_app_sync as (a0 & E0 & S0 & V0 & W0 & G0 & C0).
  exists a, a0. split; [exact E|]. split; [exact E0|].
  destruct (reset_defaults_sync a S) as (a' & E' & S' & V' & W' & G' & C').
  rewrite E'.
  destruct (Gui.show_cost_data a) eqn:Hshow.
  - destruct (toggle_cost_visibility_sync a0 S0) as (a1 & E1 & S1 & V1 & W1 & M1).
    rewrite E1. f_equal.
    apply in_sync_determined; try assumption; try congruence.
    rewrite W', W1, W0. reflexivity.
  - f_equal. apply in_sync_determined; try assumption; congruence.
Qed.

(** The Storm preset sets the generation sliders to solar 0, wind 100,
    diesel 30 and leaves load, battery, flags and cost switch alone; the
    solar line it plots is flat at 0.  Clicking Clear afterwards gives the
    state Clear would have given without the storm. *)
Theorem storm_then_clear (es : list Gui.event) :
  exists a a1,
    Gui.session es = Ok a
    /\ Gui.set_storm a = Ok a1
    /\ Gui.sliders a1
       = Gui.mkSliders 0.0 100.0 30.0 (Gui.lod_val (Gui.sliders a))
                       (Gui.bat_val (Gui.sliders a))
    /\ grid_active (Gui.sim a1) = grid_active (Gui.sim a)
    /\ scheduler_active (Gui.sim a1) = scheduler_active (Gui.sim a)
    /\ Gui.show_cost_data a1 = Gui.show_cost_data a
    /\ (forall h, (h < 24)%nat -> idx (Gui.l_sol (Gui.plots a1)) h = 0)
    /\ Gui.set_clear a1 = Gui.set_clear a.
Proof.
  destruct (session_sync es) as (a & E & S).
  destruct (set_storm_sync a S) as (a1 & E1 & S1 & V1 & W1 & (G1 & C1 & _)).
  exists a, a1. repeat (split; [assumption|]). split.
  - intros h Hh. destruct S1 as (_ & Hu & _ & _ & Hp & _).
    rewrite Hp. simpl. unfold up_to_date in Hu. rewrite V1 in Hu. simpl in Hu.
    destruct (update_logic_profiles _ _ _ _ _ _ _ Hu) as (-> & _).
    destruct (prepare_profiles (Gui.sim a1) 0.0 100.0
                (Gui.lod_val (Gui.sliders a)) (Gui.bat_val (Gui.sliders a))
                h Hh) as (-> & _).
    unfold solar_at. lra.
  - destruct (set_clear_sync a S) as (b & Eb & Sb & Vb & Wb & (Gb & Cb & _)).
    destruct (set_clear_sync a1 S1) as (c & Ec & Sc & Vc & Wc & (Gc & Cc & _)).
    rewrite Eb, Ec. f_equal.
    apply in_sync_determined; try assumption; try congruence.
    rewrite Vc, Vb, V1. reflexivity.
Qed.
